(** * Trash change dashboard: change engine, point sampler, tabular exporter

    A shallow embedding of [src/app.py]: the elementwise change computation
    [compute_changes], the strided, capped sampler [mask_to_points], the
    table construction [points_to_dataframe] and the loop over comparison
    pairs, with the properties of the specification proved about them. *)

From Stdlib Require Import String Ascii DecimalString.
From Stdlib Require Import ZArith List Bool Lia Sorted.
Import ListNotations.
Open Scope Z_scope.

Set Implicit Arguments.

(** ** Python results: a value or a raised exception *)

Inductive exn : Type :=
| ValueError
| IndexError
| KeyError.

Inductive result (A : Type) : Type :=
| Ok (a : A)
| Raise (e : exn).

Arguments Ok {A} a.
Arguments Raise {A} e.

Definition bind {A B : Type} (m : result A) (k : A -> result B) : result B :=
  match m with
  | Ok a => k a
  | Raise e => Raise e
  end.

Notation "x <- m ;; k" := (bind m (fun x => k))
  (at level 61, m at next level, right associativity).

(** ** Two-dimensional numpy arrays

    An array carries its shape and its rows; [well_formed] is numpy's own
    invariant that the buffer agrees with the shape. *)

Record ndarray (A : Type) : Type := mk_ndarray {
  nrows : nat;
  ncols : nat;
  data : list (list A)
}.

Definition well_formed {A : Type} (m : ndarray A) : bool :=
  (length (data m) =? nrows m)%nat
  && forallb (fun row => (length row =? ncols m)%nat) (data m).

(** [m.shape] *)
Definition shape {A : Type} (m : ndarray A) : Z * Z :=
  (Z.of_nat (nrows m), Z.of_nat (ncols m)).

Definition shape_eqb (s1 s2 : Z * Z) : bool :=
  (fst s1 =? fst s2) && (snd s1 =? snd s2).

(** [np.full(shape, v)] *)
Definition full {A : Type} (r c : nat) (v : A) : ndarray A :=
  mk_ndarray r c (repeat (repeat v c) r).

(** Indexing a sequence of length [n] with a Python integer: negative
    indices count from the end, anything outside raises [IndexError]. *)
Definition py_index {A : Type} (l : list A) (i : Z) : result A :=
  let n := Z.of_nat (length l) in
  let j := if i <? 0 then i + n else i in
  if (0 <=? j) && (j <? n)
  then match nth_error l (Z.to_nat j) with
       | Some v => Ok v
       | None => Raise IndexError
       end
  else Raise IndexError.

(** [m[r, c]] *)
Definition getitem {A : Type} (m : ndarray A) (r c : Z) : result A :=
  row <- py_index (data m) r ;;
  py_index row c.

(** Every [step]-th element of a list, starting with the first one when
    [skip] is zero: the elements a slice [l[::step]] walks over. *)
Fixpoint every_nth {A : Type} (skip step : nat) (l : list A) : list A :=
  match l with
  | [] => []
  | x :: l' =>
      match skip with
      | O => x :: every_nth (Nat.pred step) step l'
      | S k => every_nth k step l'
      end
  end.

(** [l[::step]]: a zero step raises, a negative one walks from the end. *)
Definition slice_step {A : Type} (l : list A) (step : Z) : result (list A) :=
  if step =? 0 then Raise ValueError
  else if step <? 0 then Ok (every_nth 0 (Z.to_nat (- step)) (rev l))
  else Ok (every_nth 0 (Z.to_nat step) l).

(** [m[r, ::step]] *)
Definition getrow_strided {A : Type} (m : ndarray A) (r step : Z)
  : result (list A) :=
  row <- py_index (data m) r ;;
  slice_step row step.

(** [row_slice.any()] on a boolean slice *)
Definition any (l : list bool) : bool := existsb (fun b => b) l.

(** [range(start, stop, step)]: CPython computes the length of the range and
    then its items as [start + i * step]. *)
Definition range_len (start stop step : Z) : Z :=
  if 0 <? step
  then (if start <? stop then (stop - start - 1) / step + 1 else 0)
  else (if stop <? start then (start - stop - 1) / (- step) + 1 else 0).

Definition py_range (start stop step : Z) : result (list Z) :=
  if step =? 0 then Raise ValueError
  else Ok (map (fun i => start + Z.of_nat i * step)
               (seq 0 (Z.to_nat (range_len start stop step)))).

(** ** Elementwise operations with numpy broadcasting *)

(** One dimension of the broadcast shape: equal extents, or one of them 1. *)
Definition broadcast_dim (n m : nat) : result nat :=
  if (n =? m)%nat then Ok n
  else if (n =? 1)%nat then Ok m
  else if (m =? 1)%nat then Ok n
  else Raise ValueError.

(** Stretching an extent-1 axis to [n] entries; other extents are kept. *)
Definition stretch {A : Type} (n : nat) (l : list A) : list A :=
  match l with
  | [x] => repeat x n
  | _ => l
  end.

Fixpoint zip_with {A B C : Type} (f : A -> B -> C) (l1 : list A) (l2 : list B)
  : list C :=
  match l1, l2 with
  | x :: l1', y :: l2' => f x y :: zip_with f l1' l2'
  | _, _ => []
  end.

(** A scalar comparison such as [a == 0] or [b > 0]. *)
Definition map_array {A B : Type} (f : A -> B) (m : ndarray A) : ndarray B :=
  mk_ndarray (nrows m) (ncols m) (map (map f) (data m)).

(** A binary elementwise operation such as [x & y]. *)
Definition binop {A B C : Type} (f : A -> B -> C) (x : ndarray A) (y : ndarray B)
  : result (ndarray C) :=
  r <- broadcast_dim (nrows x) (nrows y) ;;
  c <- broadcast_dim (ncols x) (ncols y) ;;
  Ok (mk_ndarray r c
        (zip_with (fun rx ry => zip_with f (stretch c rx) (stretch c ry))
                  (stretch r (data x)) (stretch r (data y)))).

Definition eq_scalar (m : ndarray Z) (k : Z) : ndarray bool :=
  map_array (fun v => v =? k) m.

Definition gt_scalar (m : ndarray Z) (k : Z) : ndarray bool :=
  map_array (fun v => v >? k) m.

Definition and_arrays (x y : ndarray bool) : result (ndarray bool) :=
  binop andb x y.

(** ** Change engine *)

(** [compute_changes(a, b)]: [(a==0) & (b>0), (a>0) & (b==0)] *)
Definition compute_changes (a b : ndarray Z)
  : result (ndarray bool * ndarray bool) :=
  new_mask <- and_arrays (eq_scalar a 0) (gt_scalar b 0) ;;
  cleaned_mask <- and_arrays (gt_scalar a 0) (eq_scalar b 0) ;;
  Ok (new_mask, cleaned_mask).

Definition of_rows {A : Type} (r c : nat) (rows : list (list A)) : ndarray A :=
  mk_ndarray r c rows.

Definition example_A : ndarray Z := of_rows 2 2 [[0; 1]; [0; 0]].
Definition example_B : ndarray Z := of_rows 2 2 [[0; 0]; [1; 1]].

(** A pair of masks in which mask A holds a negative value. *)
Definition negative_A : ndarray Z := of_rows 1 1 [[-1]].
Definition zero_B : ndarray Z := of_rows 1 1 [[0]].

(** The four transitions of a pixel from mask A to mask B, with "present"
    a strictly positive value and "absent" an exactly zero one. *)
Definition is_new (va vb : Z) : bool := (va =? 0) && (vb >? 0).
Definition is_cleaned (va vb : Z) : bool := (va >? 0) && (vb =? 0).

(** [(a>0) & (b>0)] and [(a==0) & (b==0)]: the two transitions that
    [compute_changes] does not surface. *)
Definition both_present (a b : ndarray Z) : result (ndarray bool) :=
  and_arrays (gt_scalar a 0) (gt_scalar b 0).

Definition both_absent (a b : ndarray Z) : result (ndarray bool) :=
  and_arrays (eq_scalar a 0) (eq_scalar b 0).

(** The same two classes with numpy truthiness (nonzero is true):
    [A AND B] and [NOT A AND NOT B]. *)
Definition both_truthy (a b : ndarray Z) : result (ndarray bool) :=
  and_arrays (map_array (fun v => negb (v =? 0)) a)
             (map_array (fun v => negb (v =? 0)) b).

Definition both_falsy (a b : ndarray Z) : result (ndarray bool) :=
  and_arrays (map_array (fun v => negb (negb (v =? 0))) a)
             (map_array (fun v => negb (negb (v =? 0))) b).

Definition count_true (l : list bool) : nat := length (filter (fun b => b) l).

(** Every pixel lies in exactly one of the four given classes. *)
Definition covered_once (rows cols : nat) (classes : list (ndarray bool))
  : Prop :=
  forall r c, 0 <= r < Z.of_nat rows -> 0 <= c < Z.of_nat cols ->
    exists vs, map (fun m => getitem m r c) classes = map Ok vs
               /\ count_true vs = 1%nat.

(** The four-way classification of the pair (A, B). *)
Definition four_way_partition (a b : ndarray Z) : Prop :=
  exists new_mask cleaned_mask both neither,
    compute_changes a b = Ok (new_mask, cleaned_mask)
    /\ both_present a b = Ok both
    /\ both_absent a b = Ok neither
    /\ covered_once (nrows a) (ncols a) [new_mask; cleaned_mask; both; neither].

Definition four_way_partition_truthy (a b : ndarray Z) : Prop :=
  exists new_mask cleaned_mask both neither,
    compute_changes a b = Ok (new_mask, cleaned_mask)
    /\ both_truthy a b = Ok both
    /\ both_falsy a b = Ok neither
    /\ covered_once (nrows a) (ncols a) [new_mask; cleaned_mask; both; neither].

Definition non_negative (m : ndarray Z) : bool :=
  forallb (forallb (fun v => 0 <=? v)) (data m).

(** ** Point sampler *)

(** Control flow of a loop body that may execute [return]. *)
Inductive flow (S R : Type) : Type :=
| Next (s : S)
| Return (r : R).

Arguments Next {S R} s.
Arguments Return {S R} r.

Section Sampler.

(** The affine transform and [rasterio.transform.xy], which maps a
    transform and a pixel (row, col) to the pair (x, y) = (lon, lat). *)
Variable Transform : Type.
Variable coord : Type.
Variable xy : Transform -> Z -> Z -> coord * coord.

Definition point : Type := (coord * coord)%type.

(** The inner [for c in range(0, cols, step)] over the columns still to
    visit, with the accumulator [pts] and the running [count]. *)
Fixpoint cols_loop (mask : ndarray bool) (transform : Transform)
    (max_points r : Z) (cs : list Z) (pts : list point) (count : Z)
  : result (flow (list point * Z) (list point)) :=
  match cs with
  | [] => Ok (Next (pts, count))
  | c :: cs' =>
      v <- getitem mask r c ;;
      if (v : bool) then
        let '(x, y) := xy transform r c in
        let pts := pts ++ [(y, x)] in
        let count := count + 1 in
        if count >=? max_points then Ok (Return pts)
        else cols_loop mask transform max_points r cs' pts count
      else cols_loop mask transform max_points r cs' pts count
  end.

(** The outer [for r in range(0, rows, step)]. *)
Fixpoint rows_loop (mask : ndarray bool) (transform : Transform)
    (step max_points cols : Z) (rs : list Z) (pts : list point) (count : Z)
  : result (list point) :=
  match rs with
  | [] => Ok pts
  | r :: rs' =>
      row_slice <- getrow_strided mask r step ;;
      if negb (any row_slice) then
        rows_loop mask transform step max_points cols rs' pts count
      else
        cs <- py_range 0 cols step ;;
        fl <- cols_loop mask transform max_points r cs pts count ;;
        match fl with
        | Return pts => Ok pts
        | Next (pts, count) =>
            rows_loop mask transform step max_points cols rs' pts count
        end
  end.

(** [mask_to_points(mask, transform, step, max_points)] *)
Definition mask_to_points (mask : ndarray bool) (transform : Transform)
    (step max_points : Z) : result (list point) :=
  let '(rows, cols) := shape mask in
  rs <- py_range 0 rows step ;;
  rows_loop mask transform step max_points cols rs [] 0.

(** The sampler with the row pre-check removed: every strided row is
    scanned column by column. *)
Fixpoint rows_loop_unchecked (mask : ndarray bool) (transform : Transform)
    (step max_points cols : Z) (rs : list Z) (pts : list point) (count : Z)
  : result (list point) :=
  match rs with
  | [] => Ok pts
  | r :: rs' =>
      cs <- py_range 0 cols step ;;
      fl <- cols_loop mask transform max_points r cs pts count ;;
      match fl with
      | Return pts => Ok pts
      | Next (pts, count) =>
          rows_loop_unchecked mask transform step max_points cols rs' pts count
      end
  end.

Definition mask_to_points_unchecked (mask : ndarray bool)
    (transform : Transform) (step max_points : Z) : result (list point) :=
  let '(rows, cols) := shape mask in
  rs <- py_range 0 rows step ;;
  rows_loop_unchecked mask transform step max_points cols rs [] 0.

(** The point emitted for the pixel [(r, c)]: (latitude, longitude). *)
Definition geo_point (transform : Transform) (p : Z * Z) : point :=
  let '(x, y) := xy transform (fst p) (snd p) in (y, x).

End Sampler.

(** *** The sampler as the specification words it *)

(** The indices 0, 1, ..., n-1 of an axis of extent [n]. *)
Definition indices (n : nat) : list Z := map Z.of_nat (seq 0 n).

(** All pixel positions of an (R, C) array in row-major order. *)
Definition all_pixels (rows cols : nat) : list (Z * Z) :=
  list_prod (indices rows) (indices cols).

(** A pixel of the stride grid: row and column both multiples of [step]. *)
Definition on_stride (step : Z) (p : Z * Z) : bool :=
  (fst p mod step =? 0) && (snd p mod step =? 0).

(** The value of a pixel, read as a truth value ([false] outside). *)
Definition pixel_true (mask : ndarray bool) (p : Z * Z) : bool :=
  nth (Z.to_nat (snd p)) (nth (Z.to_nat (fst p)) (data mask) []) false.

(** The true pixels at strided positions, in row-major order. *)
Definition strided_true_pixels (mask : ndarray bool) (step : Z)
  : list (Z * Z) :=
  filter (fun p => on_stride step p && pixel_true mask p)
         (all_pixels (nrows mask) (ncols mask)).

(** Row-major order on pixel positions. *)
Definition row_major_lt (p q : Z * Z) : Prop :=
  fst p < fst q \/ (fst p = fst q /\ snd p < snd q).

Definition all_false (mask : ndarray bool) : bool :=
  forallb (forallb negb) (data mask).

(** The indices of an axis that are multiples of [step]. *)
Definition stride_indices (n : nat) (step : Z) : list Z :=
  filter (fun k => k mod step =? 0) (indices n).

(** The true pixels of row [r] among the columns [cs]. *)
Definition row_hits (mask : ndarray bool) (cs : list Z) (r : Z)
  : list (Z * Z) :=
  map (fun c => (r, c)) (filter (fun c => pixel_true mask (r, c)) cs).

(** The effective cap: the sampler tests the cap only after appending a
    point, so a cap below one behaves as one. *)
Definition effective_cap (max_points : Z) : nat := Z.to_nat (Z.max 1 max_points).

Definition all_true_4x4 : ndarray bool := full 4 4 true.

(** A north-up transform with unit pixels on integer coordinates, anchored
    at [origin]: x grows with the column, y falls with the row.  It stands
    in for [rasterio.transform.xy] when the sampler is run on an example. *)
Definition unit_xy (origin : Z * Z) (r c : Z) : Z * Z :=
  (fst origin + c, snd origin - r).

Definition example_mask : ndarray bool :=
  of_rows 3 5 [[true; false; true; false; true];
               [true; true; true; true; true];
               [false; false; false; false; true]].

Definition all_false_2x3 : ndarray bool := full 2 3 false.

(** ** Tabular exporter *)

(** Modelled from the spec: pandas' [DataFrame] and [DataFrame.to_csv] are
    library code outside the repository.  A table is its ordered column
    names with one list of cells per column; [to_csv] with [index=False]
    writes the header row of the column names joined by commas and then one
    line per row, each ended by the line terminator. *)
Record DataFrame (V : Type) : Type := mk_DataFrame {
  columns : list string;
  column_data : list (list V)
}.

(** [pd.DataFrame(columns=names)]: the named columns, no rows. *)
Definition DataFrame_of_columns (V : Type) (names : list string) : DataFrame V :=
  mk_DataFrame names (map (fun _ => []) names).

(** [pd.DataFrame({name: cells, ...})] *)
Definition DataFrame_of_dict (V : Type) (d : list (string * list V))
  : DataFrame V :=
  mk_DataFrame (map fst d) (map snd d).

Definition row_count (V : Type) (df : DataFrame V) : nat :=
  match column_data df with
  | [] => O
  | col :: _ => length col
  end.

Fixpoint transpose (V : Type) (n : nat) (cols : list (list V)) : list (list V) :=
  match n with
  | O => []
  | S n' => flat_map (firstn 1) cols :: transpose n' (map (@tl V) cols)
  end.

Definition table_rows (V : Type) (df : DataFrame V) : list (list V) :=
  transpose (row_count df) (column_data df).

Fixpoint join (sep : string) (l : list string) : string :=
  match l with
  | [] => EmptyString
  | [s] => s
  | s :: l' => (s ++ sep ++ join sep l')%string
  end.

Definition to_csv (V : Type) (show : V -> string) (lineterminator : string)
    (df : DataFrame V) : string :=
  (join "," (columns df) ++ lineterminator
   ++ String.concat EmptyString
        (map (fun row => join "," (map show row) ++ lineterminator)
             (table_rows df)))%string.

(** [points_to_dataframe(points)] *)
Definition points_to_dataframe (coord : Type) (points : list (coord * coord))
  : DataFrame coord :=
  match points with
  | [] => DataFrame_of_columns coord ["latitude"; "longitude"]%string
  | _ :: _ =>
      let '(lat, lon) := split points in
      DataFrame_of_dict [("latitude", lat); ("longitude", lon)]%string
  end.

(** ** The loop over comparison pairs *)

(** [str(n)] for a Python integer. *)
Definition show_int (n : Z) : string := NilZero.string_of_int (Z.to_int n).

(** [str(a.shape)] for a two-dimensional array. *)
Definition show_shape (s : Z * Z) : string :=
  ("(" ++ show_int (fst s) ++ ", " ++ show_int (snd s) ++ ")")%string.

Definition lower_ascii (c : ascii) : ascii :=
  let n := nat_of_ascii c in
  if ((65 <=? n) && (n <=? 90))%nat then ascii_of_nat (n + 32) else c.

Fixpoint map_string (f : ascii -> ascii) (s : string) : string :=
  match s with
  | EmptyString => EmptyString
  | String c s' => String (f c) (map_string f s')
  end.

(** [s.lower()] on ASCII text and [s.replace(' ', '_')] *)
Definition lower (s : string) : string := map_string lower_ascii s.

Definition replace_space (s : string) : string :=
  map_string (fun c => if Ascii.eqb c " " then "_"%char else c) s.

Section Dashboard.

Variable Transform : Type.
Variable coord : Type.
Variable xy : Transform -> Z -> Z -> coord * coord.
(** [(u + v) / 2.0] on floats and the text of a float in a CSV cell. *)
Variable midpoint : coord -> coord -> coord.
Variable show_coord : coord -> string.

Record Bounds : Type := mk_Bounds {
  left : coord;
  bottom : coord;
  right : coord;
  top : coord
}.

(** One entry of the [loaded] dictionary. *)
Record entry : Type := mk_entry {
  arr : ndarray Z;
  transform : Transform;
  bounds : Bounds;
  name : string
}.

Definition loaded_t : Type := list (string * entry).

Fixpoint lookup (loaded : loaded_t) (key : string) : result entry :=
  match loaded with
  | [] => Raise KeyError
  | (k, e) :: rest => if String.eqb k key then Ok e else lookup rest key
  end.

Definition contains (loaded : loaded_t) (key : string) : bool :=
  match lookup loaded key with
  | Ok _ => true
  | Raise _ => false
  end.

(** The values read from the three widgets of one comparison. *)
Record controls : Type := mk_controls {
  ctl_step : Z;
  ctl_max_pts : Z;
  ctl_which : string
}.

(** What the page shows, in order. *)
Inductive event : Type :=
| EvError (msg : string)
| EvImage (img : ndarray bool) (title cmap : string)
| EvSubheader (text : string)
| EvMap (center_lat center_lon : coord) (pts : list (coord * coord))
        (color : string)
| EvMarkdown (text : string)
| EvDownload (label data file_name mime : string).

Definition pairs_t : Type := list (string * string * string).

Definition build_pairs (loaded : loaded_t) : pairs_t :=
  (if contains loaded "5y" && contains loaded "2y"
   then [("5y → 2y", "5y", "2y")%string] else [])
  ++
  (if contains loaded "2y" && contains loaded "3m"
   then [("2y → 3m", "2y", "3m")%string] else []).

Definition shape_mismatch_message (title : string) (sa sb : Z * Z) : string :=
  ("Shape mismatch for " ++ title ++ ": " ++ show_shape sa ++ " vs "
   ++ show_shape sb ++ ". Ensure same export region/scale.")%string.

(** The body of [for title, a_key, b_key in pairs]: the events it shows
    and whether it ran through ([Ok]) or raised. *)
Definition pair_body (loaded : loaded_t) (widgets : string -> controls)
    (p : string * string * string) : list event * result unit :=
  let '(title, a_key, b_key) := p in
  match lookup loaded a_key, lookup loaded b_key with
  | Raise e, _ => ([], Raise e)
  | Ok _, Raise e => ([], Raise e)
  | Ok ea, Ok eb =>
      let a := arr ea in
      let b := arr eb in
      let t := transform eb in
      if negb (shape_eqb (shape a) (shape b)) then
        ([EvError (shape_mismatch_message title (shape a) (shape b))], Ok tt)
      else
        match compute_changes a b with
        | Raise e => ([], Raise e)
        | Ok (new_mask, cleaned_mask) =>
            let shown :=
              [EvImage new_mask ("NEW Trash (" ++ title ++ ")") "gray";
               EvImage cleaned_mask ("CLEANED (" ++ title ++ ")") "gray";
               EvSubheader ("🗺️ Map — " ++ title)]%string in
            let w := widgets title in
            let which := ctl_which w in
            let use_mask :=
              if String.eqb which "NEW" then new_mask else cleaned_mask in
            let color :=
              (if String.eqb which "NEW" then "red" else "green")%string in
            match mask_to_points xy use_mask t (ctl_step w) (ctl_max_pts w) with
            | Raise e => (shown, Raise e)
            | Ok pts =>
                let b := bounds eb in
                let center_lat := midpoint (top b) (bottom b) in
                let center_lon := midpoint (left b) (right b) in
                let df := points_to_dataframe pts in
                let csv_bytes := to_csv show_coord (String "010" EmptyString) df in
                let label :=
                  ("⬇️ Download " ++ which ++ " points CSV — " ++ title)%string in
                let file_name :=
                  (lower which ++ "_" ++ replace_space title
                   ++ "_points.csv")%string in
                (shown ++
                 [EvMap center_lat center_lon pts color;
                  EvMarkdown "**Downloads**";
                  EvDownload label csv_bytes file_name "text/csv"],
                 Ok tt)
            end
        end
  end.

Fixpoint run_pairs (loaded : loaded_t) (widgets : string -> controls)
    (pairs : pairs_t) : list event * result unit :=
  match pairs with
  | [] => ([], Ok tt)
  | p :: rest =>
      match pair_body loaded widgets p with
      | (shown, Ok _) =>
          let '(shown', r) := run_pairs loaded widgets rest in
          (shown ++ shown', r)
      | (shown, Raise e) => (shown, Raise e)
      end
  end.

End Dashboard.

(** *** A dashboard session on integer coordinates

    Three loaded masks of which the first has 100 columns and the later
    two 101, with the page run on the [unit_xy] transform. *)

Definition example_bounds : Bounds Z := mk_Bounds 0 0 101 100.

Definition example_entry (cols : nat) (file : string) : entry (Z * Z) Z :=
  mk_entry (full 100 cols 0) (0, 100) example_bounds file.

Definition example_loaded : loaded_t (Z * Z) Z :=
  [("5y", example_entry 100 "trash_5y.tif");
   ("2y", example_entry 101 "trash_2y.tif");
   ("3m", example_entry 101 "trash_3m.tif")]%string.

Definition example_widgets (title : string) : controls :=
  mk_controls 8 50000 "NEW".

Definition example_midpoint (u v : Z) : Z := (u + v) / 2.

Definition example_run (pairs : pairs_t) : list (event Z) * result unit :=
  run_pairs unit_xy example_midpoint show_int
            example_loaded example_widgets pairs.

(** Whether two extents broadcast against each other. *)
Definition broadcastable (n m : nat) : bool :=
  (n =? m)%nat || (n =? 1)%nat || (m =? 1)%nat.

(** ** Sidebar: file guessing and the loaded masks *)

(** [k in s] on strings: [k] starts at some position of [s]. *)
Fixpoint substring_in (k s : string) : bool :=
  String.prefix k s
  || match s with
     | EmptyString => false
     | String _ s' => substring_in k s'
     end.

(** [guess_file(keyword)] over the listed files [tifs]; names are lowered
    bytewise, which is [str.lower] on ASCII names. *)
Fixpoint guess_file (tifs : list string) (keyword : string) : option string :=
  match tifs with
  | [] => None
  | f :: rest =>
      if substring_in keyword (lower f) then Some f
      else guess_file rest keyword
  end.

(** [l.index(x)]: the first position holding [x], [ValueError] without. *)
Fixpoint list_index (l : list string) (x : string) : result Z :=
  match l with
  | [] => Raise ValueError
  | y :: l' =>
      if String.eqb y x then Ok 0
      else i <- list_index l' x ;; Ok (i + 1)
  end.

(** [x in l] for a guess that may be [None]. *)
Definition guess_in (guess : option string) (l : list string) : bool :=
  match guess with
  | Some f => existsb (String.eqb f) l
  | None => false
  end.

(** The [index] argument of a select box:
    [tifs.index(guess_file(k))+1 if guess_file(k) in tifs else 0]. *)
Definition default_index (tifs : list string) (keyword : string) : result Z :=
  if guess_in (guess_file tifs keyword) tifs then
    match guess_file tifs keyword with
    | Some f => i <- list_index tifs f ;; Ok (i + 1)
    | None => Raise ValueError
    end
  else Ok 0.

(** The [options] of a select box: [["(none)"] + tifs]. *)
Definition select_options (tifs : list string) : list string :=
  "(none)"%string :: tifs.

Section Loading.

Variable Transform : Type.
Variable coord : Type.
(** [load_mask(path)], with [None] for a file that cannot be read, and
    [os.path.join]. *)
Variable load_mask : string -> option (ndarray Z * Transform * Bounds coord).
Variable path_join : string -> string -> string.

(** [loaded[key] = e] on a dictionary kept in insertion order. *)
Fixpoint dict_set (loaded : loaded_t Transform coord) (key : string)
    (e : entry Transform coord) : loaded_t Transform coord :=
  match loaded with
  | [] => [(key, e)]
  | (k, v) :: rest =>
      if String.eqb k key then (k, e) :: rest
      else (k, v) :: dict_set rest key e
  end.

(** One round of [for label, fname in [...]]: load the selected file. *)
Definition load_one (base_path : string)
    (acc : option (loaded_t Transform coord)) (sel : string * string)
  : option (loaded_t Transform coord) :=
  let '(label, fname) := sel in
  match acc with
  | None => None
  | Some loaded =>
      if negb (String.eqb fname "(none)") then
        match load_mask (path_join base_path fname) with
        | Some (arr, transform, bounds) =>
            Some (dict_set loaded label (mk_entry arr transform bounds fname))
        | None => None
        end
      else Some loaded
  end.

(** The loop that fills [loaded] from the three selections; [None] when a
    load raised. *)
Definition load_selected (base_path five_y two_y three_m : string)
  : option (loaded_t Transform coord) :=
  fold_left (load_one base_path)
            [("5y", five_y); ("2y", two_y); ("3m", three_m)]%string
            (Some []).

End Loading.

(** Whether a select box holds a file rather than ["(none)"]. *)
Definition selected (fname : string) : bool :=
  negb (String.eqb fname "(none)").

Definition example_tifs : list string :=
  ["area_2Y.tif"; "area_3m.tif"; "area_5y.tif"; "other.tif"]%string.

Definition example_load (path : string)
  : option (ndarray Z * (Z * Z) * Bounds Z) :=
  Some (example_A, (0, 2), example_bounds).

Definition example_join (base fname : string) : string :=
  (base ++ "/" ++ fname)%string.

(** * Properties *)

(** ** Indexing and elementwise operations *)

Example py_range_by_three : py_range 0 10 3 = Ok [0; 3; 6; 9].
Proof. reflexivity. Qed.

Example slice_by_three :
  slice_step [10; 11; 12; 13; 14; 15; 16] 3 = Ok [10; 13; 16].
Proof. reflexivity. Qed.

Example slice_backwards : slice_step [10; 11; 12; 13; 14] (-2) = Ok [14; 12; 10].
Proof. reflexivity. Qed.

Example py_index_from_end : py_index [10; 11; 12] (-1) = Ok 12.
Proof. reflexivity. Qed.

Example py_index_outside : py_index [10; 11; 12] 3 = Raise IndexError.
Proof. reflexivity. Qed.

(** [compute_changes] itself does not compare shapes: a one-row mask is
    broadcast against a two-row one, and only shapes that do not broadcast
    raise. *)
Example compute_changes_broadcasts :
  compute_changes (of_rows 1 2 [[0; 1]]) example_B
  = Ok (of_rows 2 2 [[false; false]; [true; false]],
        of_rows 2 2 [[false; true]; [false; false]]).
Proof. reflexivity. Qed.

Example compute_changes_incompatible :
  compute_changes (of_rows 1 3 [[0; 1; 0]]) example_B = Raise ValueError.
Proof. reflexivity. Qed.

Lemma bind_ok (A B : Type) (m : result A) (k : A -> result B) (b : B) :
  bind m k = Ok b -> exists a, m = Ok a /\ k a = Ok b.
Proof.
  destruct m as [a|e]; simpl; intros H; [eauto | discriminate].
Qed.

Lemma zip_with_length (A B C : Type) (f : A -> B -> C) l1 l2 :
  length (zip_with f l1 l2) = Nat.min (length l1) (length l2).
Proof.
  revert l2; induction l1 as [|x l1 IH]; intros [|y l2]; simpl; auto.
Qed.

Lemma zip_with_nth_error (A B C : Type) (f : A -> B -> C) l1 l2 j x y :
  nth_error l1 j = Some x -> nth_error l2 j = Some y ->
  nth_error (zip_with f l1 l2) j = Some (f x y).
Proof.
  revert l2 j; induction l1 as [|a l1 IH]; intros [|b l2] [|j]; simpl;
    try discriminate; intros H1 H2.
  - congruence.
  - now apply IH.
Qed.

Lemma zip_with_ext_in (A B C : Type) (f g : A -> B -> C) l1 l2 :
  (forall x y, In x l1 -> In y l2 -> f x y = g x y) ->
  zip_with f l1 l2 = zip_with g l1 l2.
Proof.
  revert l2; induction l1 as [|a l1 IH]; intros [|b l2] H; simpl; auto.
  f_equal; [apply H; simpl; auto | apply IH; intros; apply H; simpl; auto].
Qed.

Lemma stretch_length (A : Type) (l : list A) : stretch (length l) l = l.
Proof. destruct l as [|x [|y l]]; reflexivity. Qed.

Lemma py_index_ok (A : Type) (l : list A) i v :
  py_index l i = Ok v ->
  exists j, nth_error l j = Some v /\
            (i = Z.of_nat j \/ i = Z.of_nat j - Z.of_nat (length l)).
Proof.
  unfold py_index.
  destruct (i <? 0) eqn:Hneg;
    destruct (_ && _) eqn:Hin; try discriminate;
    destruct (nth_error l _) eqn:Hn; try discriminate;
    intros H; inversion H; subst; eexists; split; eauto;
    apply andb_true_iff in Hin; destruct Hin as [H0 H1];
    apply Z.leb_le in H0; lia.
Qed.

Lemma py_index_of_nth (A : Type) (l : list A) i j v :
  nth_error l j = Some v ->
  i = Z.of_nat j \/ i = Z.of_nat j - Z.of_nat (length l) ->
  py_index l i = Ok v.
Proof.
  intros Hn Hi.
  assert (Hlt : (j < length l)%nat) by (apply nth_error_Some; congruence).
  unfold py_index.
  destruct Hi as [-> | ->].
  - replace (Z.of_nat j <? 0) with false by (symmetry; apply Z.ltb_ge; lia).
    replace (0 <=? Z.of_nat j) with true by (symmetry; apply Z.leb_le; lia).
    replace (Z.of_nat j <? Z.of_nat (length l)) with true
      by (symmetry; apply Z.ltb_lt; lia).
    simpl. rewrite Nat2Z.id, Hn. reflexivity.
  - replace (Z.of_nat j - Z.of_nat (length l) <? 0) with true
      by (symmetry; apply Z.ltb_lt; lia).
    replace (Z.of_nat j - Z.of_nat (length l) + Z.of_nat (length l))
      with (Z.of_nat j) by lia.
    replace (0 <=? Z.of_nat j) with true by (symmetry; apply Z.leb_le; lia).
    replace (Z.of_nat j <? Z.of_nat (length l)) with true
      by (symmetry; apply Z.ltb_lt; lia).
    simpl. rewrite Nat2Z.id, Hn. reflexivity.
Qed.

Lemma py_index_map (A B : Type) (f : A -> B) l i v :
  py_index l i = Ok v -> py_index (map f l) i = Ok (f v).
Proof.
  intros H. apply py_index_ok in H. destruct H as (j & Hn & Hi).
  apply py_index_of_nth with (j := j).
  - rewrite nth_error_map, Hn. reflexivity.
  - rewrite length_map. exact Hi.
Qed.

Lemma py_index_zip_with (A B C : Type) (f : A -> B -> C) l1 l2 i x y :
  length l1 = length l2 ->
  py_index l1 i = Ok x -> py_index l2 i = Ok y ->
  py_index (zip_with f l1 l2) i = Ok (f x y).
Proof.
  intros Hlen H1 H2.
  apply py_index_ok in H1. destruct H1 as (j1 & Hn1 & Hi1).
  apply py_index_ok in H2. destruct H2 as (j2 & Hn2 & Hi2).
  assert (Hlt1 : (j1 < length l1)%nat) by (apply nth_error_Some; congruence).
  assert (Hlt2 : (j2 < length l2)%nat) by (apply nth_error_Some; congruence).
  assert (j2 = j1) by lia. subst j2.
  apply py_index_of_nth with (j := j1).
  - now apply zip_with_nth_error.
  - rewrite zip_with_length, <- Hlen, Nat.min_id. exact Hi1.
Qed.

Lemma py_index_in (A : Type) (l : list A) i v : py_index l i = Ok v -> In v l.
Proof.
  intros H. apply py_index_ok in H. destruct H as (j & Hn & _).
  eapply nth_error_In; eauto.
Qed.

Lemma well_formed_rows (A : Type) (m : ndarray A) :
  well_formed m = true ->
  length (data m) = nrows m /\
  forall row, In row (data m) -> length row = ncols m.
Proof.
  unfold well_formed. intros H. apply andb_true_iff in H. destruct H as [H1 H2].
  apply Nat.eqb_eq in H1. split; [exact H1|].
  intros row Hin. rewrite forallb_forall in H2.
  apply Nat.eqb_eq. now apply H2.
Qed.

Lemma well_formed_intro (A : Type) (m : ndarray A) :
  length (data m) = nrows m ->
  (forall row, In row (data m) -> length row = ncols m) ->
  well_formed m = true.
Proof.
  intros H1 H2. unfold well_formed. apply andb_true_iff. split.
  - now apply Nat.eqb_eq.
  - apply forallb_forall. intros row Hin. apply Nat.eqb_eq. now apply H2.
Qed.

Lemma broadcast_dim_same n : broadcast_dim n n = Ok n.
Proof. unfold broadcast_dim. now rewrite Nat.eqb_refl. Qed.

(** On operands of one shape an elementwise operation pairs the cells. *)
Lemma binop_same_shape (A B C : Type) (f : A -> B -> C) x y :
  well_formed x = true -> well_formed y = true ->
  nrows x = nrows y -> ncols x = ncols y ->
  binop f x y
  = Ok (mk_ndarray (nrows x) (ncols x)
          (zip_with (zip_with f) (data x) (data y))).
Proof.
  intros Hx Hy Hr Hc.
  apply well_formed_rows in Hx. destruct Hx as [Hx1 Hx2].
  apply well_formed_rows in Hy. destruct Hy as [Hy1 Hy2].
  unfold binop. rewrite <- Hr, <- Hc, !broadcast_dim_same. simpl.
  do 2 f_equal.
  rewrite <- Hx1 at 1. rewrite stretch_length.
  replace (nrows x) with (length (data y)) by lia. rewrite stretch_length.
  apply zip_with_ext_in. intros rx ry Hinx Hiny.
  rewrite <- (Hx2 rx Hinx) at 1. rewrite stretch_length.
  replace (ncols x) with (length ry) by (rewrite (Hy2 ry Hiny); lia).
  now rewrite stretch_length.
Qed.

Lemma shape_eq_inv (A B : Type) (x : ndarray A) (y : ndarray B) :
  shape x = shape y -> nrows x = nrows y /\ ncols x = ncols y.
Proof. unfold shape. intros H. inversion H. lia. Qed.

Lemma map_array_well_formed (A B : Type) (f : A -> B) m :
  well_formed m = true -> well_formed (map_array f m) = true.
Proof.
  intros H. apply well_formed_rows in H. destruct H as [H1 H2].
  apply well_formed_intro; simpl.
  - now rewrite length_map.
  - intros row Hin. apply in_map_iff in Hin. destruct Hin as (r0 & <- & Hin).
    rewrite length_map. now apply H2.
Qed.

Lemma getitem_map_array (A B : Type) (f : A -> B) m r c v :
  getitem m r c = Ok v -> getitem (map_array f m) r c = Ok (f v).
Proof.
  unfold getitem. intros H. apply bind_ok in H. destruct H as (row & Hrow & Hc).
  simpl. rewrite (py_index_map (map f) _ _ Hrow). simpl.
  now apply py_index_map.
Qed.

Lemma getitem_zip (A B C : Type) (f : A -> B -> C) x y r c vx vy :
  well_formed x = true -> well_formed y = true ->
  nrows x = nrows y -> ncols x = ncols y ->
  getitem x r c = Ok vx -> getitem y r c = Ok vy ->
  getitem (mk_ndarray (nrows x) (ncols x)
             (zip_with (zip_with f) (data x) (data y))) r c
  = Ok (f vx vy).
Proof.
  intros Hx Hy Hr Hc Gx Gy.
  apply well_formed_rows in Hx. destruct Hx as [Hx1 Hx2].
  apply well_formed_rows in Hy. destruct Hy as [Hy1 Hy2].
  unfold getitem in *. simpl.
  apply bind_ok in Gx. destruct Gx as (rx & Hrx & Hcx).
  apply bind_ok in Gy. destruct Gy as (ry & Hry & Hcy).
  assert (Hlen : length (data x) = length (data y)) by lia.
  rewrite (py_index_zip_with (zip_with f) _ _ _ Hlen Hrx Hry). simpl.
  apply py_index_zip_with; auto.
  rewrite (Hx2 rx (py_index_in _ _ Hrx)), (Hy2 ry (py_index_in _ _ Hry)). lia.
Qed.

Lemma zip_with_map (A A' B B' C : Type) (f : A' -> B' -> C)
    (g : A -> A') (h : B -> B') l1 l2 :
  zip_with f (map g l1) (map h l2) = zip_with (fun x y => f (g x) (h y)) l1 l2.
Proof.
  revert l2; induction l1 as [|a l1 IH]; intros [|b l2]; simpl; auto.
  now rewrite IH.
Qed.

Lemma zip_with_fuse (A B C D E : Type) (f : C -> D -> E)
    (g : A -> B -> C) (h : A -> B -> D) l1 l2 :
  zip_with f (zip_with g l1 l2) (zip_with h l1 l2)
  = zip_with (fun x y => f (g x y) (h x y)) l1 l2.
Proof.
  revert l2; induction l1 as [|a l1 IH]; intros [|b l2]; simpl; auto.
  now rewrite IH.
Qed.

Lemma zip_with_const (A B C : Type) (f : A -> B -> C) (k : C) l1 l2 :
  length l1 = length l2 ->
  (forall x y, In x l1 -> In y l2 -> f x y = k) ->
  zip_with f l1 l2 = repeat k (length l1).
Proof.
  revert l2; induction l1 as [|a l1 IH]; intros [|b l2] Hlen H; simpl in *;
    try discriminate; auto.
  f_equal; [apply H; auto | apply IH; [lia | intros; apply H; auto]].
Qed.

Lemma zip_rows_well_formed (A B C : Type) (f : A -> B -> C) x y :
  well_formed x = true -> well_formed y = true ->
  nrows x = nrows y -> ncols x = ncols y ->
  well_formed (mk_ndarray (nrows x) (ncols x)
                 (zip_with (zip_with f) (data x) (data y))) = true.
Proof.
  intros Hx Hy Hr Hc.
  apply well_formed_rows in Hx. destruct Hx as [Hx1 Hx2].
  apply well_formed_rows in Hy. destruct Hy as [Hy1 Hy2].
  apply well_formed_intro; simpl.
  - rewrite zip_with_length. lia.
  - intros row Hin. apply In_nth_error in Hin. destruct Hin as (j & Hj).
    assert (Hlt : (j < length (zip_with (zip_with f) (data x) (data y)))%nat)
      by (apply nth_error_Some; congruence).
    rewrite zip_with_length in Hlt.
    destruct (nth_error (data x) j) as [rx|] eqn:Ex;
      [|apply nth_error_None in Ex; lia].
    destruct (nth_error (data y) j) as [ry|] eqn:Ey;
      [|apply nth_error_None in Ey; lia].
    rewrite (zip_with_nth_error (zip_with f) _ _ _ Ex Ey) in Hj.
    inversion Hj; subst. rewrite zip_with_length.
    rewrite (Hx2 rx (nth_error_In _ _ Ex)), (Hy2 ry (nth_error_In _ _ Ey)). lia.
Qed.

(** ** Change engine *)

(** Two scalar comparisons joined by [&], on operands of one shape. *)
Lemma and_of_comparisons (p q : Z -> bool) a b :
  well_formed a = true -> well_formed b = true -> shape a = shape b ->
  and_arrays (map_array p a) (map_array q b)
  = Ok (mk_ndarray (nrows a) (ncols a)
          (zip_with (zip_with (fun x y => p x && q y)) (data a) (data b))).
Proof.
  intros Ha Hb Hs. apply shape_eq_inv in Hs. destruct Hs as [Hr Hc].
  unfold and_arrays.
  rewrite binop_same_shape; auto using map_array_well_formed.
  simpl. do 2 f_equal. rewrite zip_with_map.
  apply zip_with_ext_in. intros; apply zip_with_map.
Qed.

Lemma compute_changes_same_shape a b :
  well_formed a = true -> well_formed b = true -> shape a = shape b ->
  compute_changes a b
  = Ok (mk_ndarray (nrows a) (ncols a)
          (zip_with (zip_with is_new) (data a) (data b)),
        mk_ndarray (nrows a) (ncols a)
          (zip_with (zip_with is_cleaned) (data a) (data b))).
Proof.
  intros Ha Hb Hs. unfold compute_changes, eq_scalar, gt_scalar.
  rewrite !and_of_comparisons by assumption. reflexivity.
Qed.

Lemma getitem_in_range (A : Type) (m : ndarray A) r c :
  well_formed m = true ->
  0 <= r < Z.of_nat (nrows m) -> 0 <= c < Z.of_nat (ncols m) ->
  exists row v,
    nth_error (data m) (Z.to_nat r) = Some row
    /\ nth_error row (Z.to_nat c) = Some v
    /\ getitem m r c = Ok v.
Proof.
  intros Hm Hr Hc. apply well_formed_rows in Hm. destruct Hm as [H1 H2].
  destruct (nth_error (data m) (Z.to_nat r)) as [row|] eqn:Er;
    [|apply nth_error_None in Er; lia].
  assert (Hlen : length row = ncols m) by (apply H2; eapply nth_error_In; eauto).
  destruct (nth_error row (Z.to_nat c)) as [v|] eqn:Ec;
    [|apply nth_error_None in Ec; lia].
  exists row, v. repeat split; auto.
  unfold getitem.
  rewrite (py_index_of_nth (data m) (i := r) _ Er) by (left; lia). simpl.
  apply py_index_of_nth with (j := Z.to_nat c); auto. left; lia.
Qed.

Lemma non_negative_cell (m : ndarray Z) r c row v :
  non_negative m = true ->
  nth_error (data m) r = Some row -> nth_error row c = Some v -> 0 <= v.
Proof.
  unfold non_negative. intros H Hr Hc.
  rewrite forallb_forall in H. specialize (H row (nth_error_In _ _ Hr)).
  rewrite forallb_forall in H. specialize (H v (nth_error_In _ _ Hc)).
  now apply Z.leb_le.
Qed.

(** The cells of [p(a) & q(b)] on operands of one shape. *)
Lemma and_of_comparisons_cell (p q : Z -> bool) a b :
  well_formed a = true -> well_formed b = true -> shape a = shape b ->
  exists m,
    and_arrays (map_array p a) (map_array q b) = Ok m
    /\ well_formed m = true
    /\ shape m = shape a
    /\ forall r c va vb,
         getitem a r c = Ok va -> getitem b r c = Ok vb ->
         getitem m r c = Ok (p va && q vb).
Proof.
  intros Ha Hb Hs. eexists. split; [now apply and_of_comparisons|].
  destruct (shape_eq_inv Hs) as [Hr Hc].
  split; [now apply zip_rows_well_formed|].
  split; [reflexivity|].
  intros r c va vb Ga Gb.
  now apply (getitem_zip (fun x y => p x && q y)).
Qed.

(** C1: on masks of one shape, [compute_changes] returns a new mask that is
    true at a pixel exactly when A is zero and B is strictly positive there,
    and a cleaned mask that is true exactly when A is strictly positive and
    B is zero; on A = [[0,1],[0,0]] and B = [[0,0],[1,1]] it returns
    new = [[0,0],[1,1]] and cleaned = [[0,1],[0,0]]. *)
Theorem compute_changes_semantics :
  (forall a b : ndarray Z,
     well_formed a = true -> well_formed b = true -> shape a = shape b ->
     exists new_mask cleaned_mask,
       compute_changes a b = Ok (new_mask, cleaned_mask)
       /\ forall r c,
            0 <= r < Z.of_nat (nrows a) -> 0 <= c < Z.of_nat (ncols a) ->
            exists va vb vn vc,
              getitem a r c = Ok va /\ getitem b r c = Ok vb
              /\ getitem new_mask r c = Ok vn
              /\ getitem cleaned_mask r c = Ok vc
              /\ (vn = true <-> va = 0 /\ 0 < vb)
              /\ (vc = true <-> 0 < va /\ vb = 0))
  /\ compute_changes example_A example_B
     = Ok (of_rows 2 2 [[false; false]; [true; true]],
           of_rows 2 2 [[false; true]; [false; false]]).
Proof.
  split; [|reflexivity].
  intros a b Ha Hb Hs.
  destruct (shape_eq_inv Hs) as [Hr Hc].
  do 2 eexists. split; [now apply compute_changes_same_shape|].
  intros r c Hrr Hcc.
  destruct (@getitem_in_range _ a r c Ha Hrr Hcc) as (rowa & va & _ & _ & Ga).
  destruct (@getitem_in_range _ b r c Hb) as (rowb & vb & _ & _ & Gb); try lia.
  exists va, vb, (is_new va vb), (is_cleaned va vb).
  repeat split; auto using getitem_zip; unfold is_new, is_cleaned in *.
  - apply andb_true_iff in H. destruct H as [H _]. now apply Z.eqb_eq.
  - apply andb_true_iff in H. destruct H as [_ H]. apply Z.gtb_lt in H. lia.
  - intros [-> H]. simpl. apply Z.gtb_lt. lia.
  - apply andb_true_iff in H. destruct H as [H _]. apply Z.gtb_lt in H. lia.
  - apply andb_true_iff in H. destruct H as [_ H]. now apply Z.eqb_eq.
  - intros [H ->]. rewrite Z.eqb_refl, andb_true_r. apply Z.gtb_lt. lia.
Qed.

Lemma compute_changes_semantics_witness :
  exists new_mask cleaned_mask,
    compute_changes example_A example_B = Ok (new_mask, cleaned_mask)
    /\ forall r c,
         0 <= r < Z.of_nat (nrows example_A) ->
         0 <= c < Z.of_nat (ncols example_A) ->
         exists va vb vn vc,
           getitem example_A r c = Ok va /\ getitem example_B r c = Ok vb
           /\ getitem new_mask r c = Ok vn
           /\ getitem cleaned_mask r c = Ok vc
           /\ (vn = true <-> va = 0 /\ 0 < vb)
           /\ (vc = true <-> 0 < va /\ vb = 0).
Proof.
  apply (proj1 compute_changes_semantics example_A example_B); reflexivity.
Defined.

(** C4: on masks of one shape the two outputs of [compute_changes] are
    mutually exclusive: their pixelwise conjunction is the all-false array
    of that shape. *)
Theorem compute_changes_exclusive (a b : ndarray Z) :
  well_formed a = true -> well_formed b = true -> shape a = shape b ->
  exists new_mask cleaned_mask,
    compute_changes a b = Ok (new_mask, cleaned_mask)
    /\ and_arrays new_mask cleaned_mask = Ok (full (nrows a) (ncols a) false).
Proof.
  intros Ha Hb Hs.
  destruct (shape_eq_inv Hs) as [Hr Hc].
  do 2 eexists. split; [now apply compute_changes_same_shape|].
  unfold and_arrays.
  rewrite binop_same_shape; auto using zip_rows_well_formed.
  simpl. unfold full. do 2 f_equal.
  destruct (well_formed_rows _ Ha) as [Ha1 Ha2].
  destruct (well_formed_rows _ Hb) as [Hb1 Hb2].
  rewrite zip_with_fuse.
  rewrite zip_with_const with (k := repeat false (ncols a)).
  - now rewrite Ha1.
  - lia.
  - intros ra rb Hina Hinb. rewrite zip_with_fuse.
    rewrite zip_with_const with (k := false).
    + now rewrite (Ha2 ra Hina).
    + rewrite (Ha2 ra Hina), (Hb2 rb Hinb). lia.
    + intros x y _ _. unfold is_new, is_cleaned.
      destruct (Z.eqb_spec x 0) as [->|]; simpl; [|reflexivity].
      now destruct (y >? 0).
Qed.

Lemma compute_changes_exclusive_witness :
  exists new_mask cleaned_mask,
    compute_changes example_A example_B = Ok (new_mask, cleaned_mask)
    /\ and_arrays new_mask cleaned_mask
       = Ok (full (nrows example_A) (ncols example_A) false).
Proof.
  apply (@compute_changes_exclusive example_A example_B); reflexivity.
Defined.

(** C10: on masks of one shape both outputs of [compute_changes] are
    boolean arrays of exactly the shape of the inputs. *)
Theorem compute_changes_shape (a b : ndarray Z) :
  well_formed a = true -> well_formed b = true -> shape a = shape b ->
  exists new_mask cleaned_mask : ndarray bool,
    compute_changes a b = Ok (new_mask, cleaned_mask)
    /\ shape new_mask = shape a /\ shape cleaned_mask = shape a
    /\ shape new_mask = shape b /\ shape cleaned_mask = shape b
    /\ well_formed new_mask = true /\ well_formed cleaned_mask = true.
Proof.
  intros Ha Hb Hs.
  destruct (shape_eq_inv Hs) as [Hr Hc].
  do 2 eexists. split; [now apply compute_changes_same_shape|].
  rewrite <- Hs.
  repeat split; auto using zip_rows_well_formed.
Qed.

Lemma compute_changes_shape_witness :
  exists new_mask cleaned_mask : ndarray bool,
    compute_changes example_A example_B = Ok (new_mask, cleaned_mask)
    /\ shape new_mask = shape example_A
    /\ shape cleaned_mask = shape example_A
    /\ shape new_mask = shape example_B
    /\ shape cleaned_mask = shape example_B
    /\ well_formed new_mask = true /\ well_formed cleaned_mask = true.
Proof.
  apply (@compute_changes_shape example_A example_B); reflexivity.
Defined.

Lemma count_true_four (va vb : Z) :
  0 <= va -> 0 <= vb ->
  count_true [is_new va vb; is_cleaned va vb;
              (va >? 0) && (vb >? 0); (va =? 0) && (vb =? 0)] = 1%nat.
Proof.
  intros Ha Hb. unfold is_new, is_cleaned, count_true.
  destruct (Z.eqb_spec va 0) as [->|Na], (Z.eqb_spec vb 0) as [->|Nb]; simpl.
  - reflexivity.
  - replace (vb >? 0) with true by (symmetry; apply Z.gtb_lt; lia).
    reflexivity.
  - replace (va >? 0) with true by (symmetry; apply Z.gtb_lt; lia).
    reflexivity.
  - replace (va >? 0) with true by (symmetry; apply Z.gtb_lt; lia).
    replace (vb >? 0) with true by (symmetry; apply Z.gtb_lt; lia).
    reflexivity.
Qed.

(** C5, as the code has it: on masks of one shape whose values are all zero
    or positive, every pixel lies in exactly one of the four classes new,
    cleaned, present in both, absent in both. *)
Theorem four_way_partition_non_negative (a b : ndarray Z) :
  well_formed a = true -> well_formed b = true -> shape a = shape b ->
  non_negative a = true -> non_negative b = true ->
  four_way_partition a b.
Proof.
  intros Ha Hb Hs Na Nb.
  destruct (shape_eq_inv Hs) as [Hr Hc].
  destruct (and_of_comparisons_cell (fun v => v >? 0) (fun v => v >? 0) Ha Hb Hs)
    as (both & Eboth & _ & _ & Cboth).
  destruct (and_of_comparisons_cell (fun v => v =? 0) (fun v => v =? 0) Ha Hb Hs)
    as (neither & Eneither & _ & _ & Cneither).
  unfold four_way_partition.
  do 2 eexists. exists both, neither.
  split; [now apply compute_changes_same_shape|].
  split; [exact Eboth|]. split; [exact Eneither|].
  intros r c Hrr Hcc.
  destruct (@getitem_in_range _ a r c Ha Hrr Hcc) as (rowa & va & Ra & Ca & Ga).
  destruct (@getitem_in_range _ b r c Hb) as (rowb & vb & Rb & Cb & Gb);
    try lia.
  exists [is_new va vb; is_cleaned va vb;
          (va >? 0) && (vb >? 0); (va =? 0) && (vb =? 0)].
  split.
  - simpl.
    rewrite (getitem_zip is_new a b r c Ha Hb Hr Hc Ga Gb).
    rewrite (getitem_zip is_cleaned a b r c Ha Hb Hr Hc Ga Gb).
    rewrite (Cboth r c va vb Ga Gb), (Cneither r c va vb Ga Gb).
    reflexivity.
  - apply count_true_four.
    + exact (non_negative_cell a _ _ Na Ra Ca).
    + exact (non_negative_cell b _ _ Nb Rb Cb).
Qed.

Lemma four_way_partition_non_negative_witness :
  four_way_partition example_A example_B.
Proof.
  apply (@four_way_partition_non_negative example_A example_B); reflexivity.
Defined.

(** C5, as stated, fails on a pair with a negative value: the pixel with
    A = -1 and B = 0 lies in none of the four classes, whether "present" is
    read as strictly positive or as nonzero. *)
Lemma four_way_partition_negative_value :
  well_formed negative_A = true /\ well_formed zero_B = true
  /\ shape negative_A = shape zero_B
  /\ ~ four_way_partition negative_A zero_B
  /\ ~ four_way_partition_truthy negative_A zero_B.
Proof.
  repeat split; try reflexivity.
  - intros (n & cl & bo & ne & E1 & E2 & E3 & Hcov).
    inversion E1; subst n cl. inversion E2; subst bo. inversion E3; subst ne.
    destruct (Hcov 0 0) as (vs & Hvs & Hcount); simpl; try lia.
    destruct vs as [|v1 [|v2 [|v3 [|v4 [|]]]]]; try discriminate.
    inversion Hvs; subst. discriminate.
  - intros (n & cl & bo & ne & E1 & E2 & E3 & Hcov).
    inversion E1; subst n cl. inversion E2; subst bo. inversion E3; subst ne.
    destruct (Hcov 0 0) as (vs & Hvs & Hcount); simpl; try lia.
    destruct vs as [|v1 [|v2 [|v3 [|v4 [|]]]]]; try discriminate.
    inversion Hvs; subst. discriminate.
Qed.

(** ** Ranges and strided slices *)

Lemma indices_snoc n : indices (S n) = indices n ++ [Z.of_nat n].
Proof. unfold indices. now rewrite seq_S, map_app. Qed.

Lemma in_indices n k : In k (indices n) <-> 0 <= k < Z.of_nat n.
Proof.
  unfold indices. rewrite in_map_iff. split.
  - intros (i & <- & Hi). apply in_seq in Hi. lia.
  - intros H. exists (Z.to_nat k). split; [lia | apply in_seq; lia].
Qed.

Lemma in_stride_indices n step k :
  In k (stride_indices n step) <-> 0 <= k < Z.of_nat n /\ k mod step = 0.
Proof.
  unfold stride_indices. rewrite filter_In, in_indices, Z.eqb_eq. tauto.
Qed.

Lemma stride_indices_snoc n step :
  stride_indices (S n) step
  = stride_indices n step
    ++ (if Z.of_nat n mod step =? 0 then [Z.of_nat n] else []).
Proof.
  unfold stride_indices. rewrite indices_snoc, filter_app. reflexivity.
Qed.

Lemma range_len_succ n step :
  0 < step ->
  Z.to_nat (range_len 0 (Z.of_nat (S n)) step)
  = if Z.of_nat n mod step =? 0
    then S (Z.to_nat (range_len 0 (Z.of_nat n) step))
    else Z.to_nat (range_len 0 (Z.of_nat n) step).
Proof.
  intros Hs. unfold range_len.
  replace (0 <? step) with true by (symmetry; apply Z.ltb_lt; lia).
  replace (0 <? Z.of_nat (S n)) with true by (symmetry; apply Z.ltb_lt; lia).
  replace (Z.of_nat (S n) - 0 - 1) with (Z.of_nat n) by lia.
  destruct (Z.eqb_spec (Z.of_nat n mod step) 0) as [Hm|Hm];
    destruct (Z.ltb_spec 0 (Z.of_nat n)) as [Hn|Hn].
  - replace (Z.of_nat n - 0 - 1) with (Z.of_nat n - 1) by lia.
    assert (Z.of_nat n / step = (Z.of_nat n - 1) / step + 1)
      by (Z.div_mod_to_equations; nia).
    assert (0 <= (Z.of_nat n - 1) / step) by (apply Z.div_pos; lia).
    lia.
  - replace (Z.of_nat n) with 0 by lia. rewrite Z.div_0_l by lia. reflexivity.
  - replace (Z.of_nat n - 0 - 1) with (Z.of_nat n - 1) by lia.
    assert (Z.of_nat n / step = (Z.of_nat n - 1) / step)
      by (Z.div_mod_to_equations; nia).
    congruence.
  - exfalso. apply Hm. replace (Z.of_nat n) with 0 by lia.
    apply Z.mod_0_l. lia.
Qed.

Lemma range_len_multiple n step :
  0 < step -> Z.of_nat n mod step = 0 ->
  Z.of_nat (Z.to_nat (range_len 0 (Z.of_nat n) step)) * step = Z.of_nat n.
Proof.
  intros Hs Hm. unfold range_len.
  replace (0 <? step) with true by (symmetry; apply Z.ltb_lt; lia).
  destruct (Z.ltb_spec 0 (Z.of_nat n)) as [Hn|Hn]; [|simpl; lia].
  replace (Z.of_nat n - 0 - 1) with (Z.of_nat n - 1) by lia.
  assert (Hq : Z.of_nat n = step * (Z.of_nat n / step))
    by (apply Z.div_exact; lia).
  assert (Hd : (Z.of_nat n - 1) / step = Z.of_nat n / step - 1).
  { symmetry. apply Z.div_unique with (r := step - 1); lia. }
  assert (0 < Z.of_nat n / step) by nia.
  rewrite Hd, Z2Nat.id by lia. lia.
Qed.

(** [range(0, n, step)] with a positive step lists the multiples of [step]
    below [n]. *)
Lemma py_range_stride n step :
  0 < step -> py_range 0 (Z.of_nat n) step = Ok (stride_indices n step).
Proof.
  intros Hs. unfold py_range.
  replace (step =? 0) with false by (symmetry; apply Z.eqb_neq; lia).
  f_equal. induction n as [|n IH].
  - unfold range_len. now destruct (0 <? step).
  - rewrite stride_indices_snoc, range_len_succ by assumption.
    destruct (Z.eqb_spec (Z.of_nat n mod step) 0) as [Hm|Hm].
    + rewrite seq_S, map_app, IH. simpl. do 2 f_equal.
      now apply range_len_multiple.
    + rewrite IH. now rewrite app_nil_r.
Qed.

Lemma py_range_zero_step start stop : py_range start stop 0 = Raise ValueError.
Proof. reflexivity. Qed.

Lemma py_range_negative_step n step :
  step < 0 -> py_range 0 (Z.of_nat n) step = Ok [].
Proof.
  intros Hs. unfold py_range, range_len.
  replace (step =? 0) with false by (symmetry; apply Z.eqb_neq; lia).
  replace (0 <? step) with false by (symmetry; apply Z.ltb_ge; lia).
  replace (Z.of_nat n <? 0) with false by (symmetry; apply Z.ltb_ge; lia).
  reflexivity.
Qed.

(** A strided slice holds the element at every multiple of the step. *)
Lemma every_nth_holds (A : Type) (d : A) (s : nat) (l : list A) :
  (0 < s)%nat ->
  forall k i, (k < s)%nat -> (k + i * s < length l)%nat ->
  In (nth (k + i * s) l d) (every_nth k s l).
Proof.
  intros Hs. induction l as [|x l IH]; intros k i Hk Hlt; simpl in Hlt.
  - lia.
  - destruct k as [|k]; simpl.
    + destruct i as [|i]; simpl.
      * now left.
      * right. replace (s + i * s)%nat with (S (Nat.pred s + i * s)) by lia.
        apply IH; lia.
    + apply IH; lia.
Qed.

Lemma filter_none (A : Type) (f : A -> bool) (l : list A) :
  (forall x, In x l -> f x = false) -> filter f l = [].
Proof.
  induction l as [|x l IH]; intros H; simpl; [reflexivity|].
  rewrite (H x (or_introl eq_refl)). apply IH. intros; apply H; now right.
Qed.

Lemma pixel_true_getitem (mask : ndarray bool) r c :
  well_formed mask = true ->
  0 <= r < Z.of_nat (nrows mask) -> 0 <= c < Z.of_nat (ncols mask) ->
  getitem mask r c = Ok (pixel_true mask (r, c)).
Proof.
  intros Hm Hr Hc.
  destruct (@getitem_in_range _ mask r c Hm Hr Hc) as (row & v & Er & Ec & G).
  rewrite G. unfold pixel_true. simpl.
  rewrite (nth_error_nth _ _ [] Er), (nth_error_nth _ _ false Ec). reflexivity.
Qed.

(** A row whose strided slice holds no true value has no true pixel on the
    stride grid. *)
Lemma row_without_hits (mask : ndarray bool) r step row_slice :
  well_formed mask = true -> 0 < step ->
  0 <= r < Z.of_nat (nrows mask) ->
  getrow_strided mask r step = Ok row_slice ->
  any row_slice = false ->
  row_hits mask (stride_indices (ncols mask) step) r = [].
Proof.
  intros Hm Hs Hr Hslice Hany.
  destruct (well_formed_rows _ Hm) as [H1 H2].
  unfold getrow_strided in Hslice.
  destruct (nth_error (data mask) (Z.to_nat r)) as [row|] eqn:Er;
    [|apply nth_error_None in Er; lia].
  rewrite (py_index_of_nth (data mask) (i := r) _ Er) in Hslice by (left; lia).
  simpl in Hslice. unfold slice_step in Hslice.
  replace (step =? 0) with false in Hslice by (symmetry; apply Z.eqb_neq; lia).
  replace (step <? 0) with false in Hslice by (symmetry; apply Z.ltb_ge; lia).
  inversion Hslice; subst row_slice; clear Hslice.
  assert (Hlen : length row = ncols mask)
    by (apply H2; eapply nth_error_In; eauto).
  unfold row_hits.
  rewrite filter_none; [reflexivity|].
  intros c Hin. apply in_stride_indices in Hin. destruct Hin as [Hc Hmod].
  unfold pixel_true. simpl. rewrite (nth_error_nth _ _ [] Er).
  unfold any in Hany.
  destruct (nth (Z.to_nat c) row false) eqn:Ev; [|reflexivity].
  exfalso.
  assert (Hex : existsb (fun b => b) (every_nth 0 (Z.to_nat step) row) = true).
  { apply existsb_exists. exists true. split; [|reflexivity].
    rewrite <- Ev.
    assert (Hq : c = step * (c / step)) by (apply Z.div_exact; lia).
    assert (Hpos : 0 <= c / step) by (apply Z.div_pos; lia).
    assert (Hc' : (0 + Z.to_nat (c / step) * Z.to_nat step)%nat = Z.to_nat c).
    { rewrite <- Z2Nat.inj_mul by lia. simpl. f_equal. lia. }
    rewrite <- Hc'. apply every_nth_holds; lia. }
  congruence.
Qed.

Section SamplerProperties.

Variable Transform : Type.
Variable coord : Type.
Variable xy : Transform -> Z -> Z -> coord * coord.

Lemma cols_loop_spec (mask : ndarray bool) (t : Transform) max_points r cs :
  (forall c, In c cs -> getitem mask r c = Ok (pixel_true mask (r, c))) ->
  forall pts count,
    0 <= count < Z.max 1 max_points ->
    cols_loop xy mask t max_points r cs pts count
    = Ok (let hits := row_hits mask cs r in
          if count + Z.of_nat (length hits) <? Z.max 1 max_points
          then Next (pts ++ map (geo_point xy t) hits,
                     count + Z.of_nat (length hits))
          else Return (pts ++ map (geo_point xy t)
                         (firstn (Z.to_nat (Z.max 1 max_points - count))
                                 hits))).
Proof.
  unfold row_hits.
  induction cs as [|c cs IH]; intros Hget pts count Hcount; simpl.
  - replace (count + 0 <? Z.max 1 max_points) with true
      by (symmetry; apply Z.ltb_lt; lia).
    now rewrite app_nil_r, Z.add_0_r.
  - rewrite (Hget c (or_introl eq_refl)). cbn [bind].
    assert (Hget' : forall c', In c' cs ->
              getitem mask r c' = Ok (pixel_true mask (r, c')))
      by (intros; apply Hget; now right).
    destruct (pixel_true mask (r, c)) eqn:Ev; [|now apply IH].
    specialize (IH Hget'). cbn [map length].
    remember (map (fun c0 => (r, c0))
                (filter (fun c0 => pixel_true mask (r, c0)) cs)) as hits.
    rewrite Nat2Z.inj_succ.
    assert (Hgp : geo_point xy t (r, c) = let '(x, y) := xy t r c in (y, x))
      by reflexivity.
    destruct (xy t r c) as [x y]. rewrite Hgp.
    destruct (Z.geb_spec (count + 1) max_points) as [Hge|Hlt].
    + replace (_ <? _) with false by (symmetry; apply Z.ltb_ge; lia).
      replace (Z.to_nat (Z.max 1 max_points - count)) with 1%nat by lia.
      cbn [firstn map]. now rewrite Hgp.
    + rewrite IH by lia.
      replace (count + Z.succ (Z.of_nat (length hits)))
        with (count + 1 + Z.of_nat (length hits)) by lia.
      destruct (_ <? _).
      * now rewrite <- app_assoc.
      * replace (Z.to_nat (Z.max 1 max_points - count))
          with (S (Z.to_nat (Z.max 1 max_points - (count + 1)))) by lia.
        cbn [firstn map]. rewrite Hgp. now rewrite <- app_assoc.
Qed.

Lemma firstn_app_short (A : Type) (n : nat) (l1 l2 : list A) :
  (length l1 <= n)%nat ->
  firstn n (l1 ++ l2) = l1 ++ firstn (n - length l1) l2.
Proof.
  intros H. rewrite firstn_app, firstn_all2 by assumption. reflexivity.
Qed.

Lemma firstn_app_long (A : Type) (n : nat) (l1 l2 : list A) :
  (n <= length l1)%nat -> firstn n (l1 ++ l2) = firstn n l1.
Proof.
  intros H. rewrite firstn_app.
  replace (n - length l1)%nat with O by lia. simpl. apply app_nil_r.
Qed.

Section Loops.

Variable mask : ndarray bool.
Variable t : Transform.
Variables step max_points : Z.
Hypothesis mask_wf : well_formed mask = true.
Hypothesis step_pos : 0 < step.

Let cs : list Z := stride_indices (ncols mask) step.
Let cap : Z := Z.max 1 max_points.

Lemma cols_in_range r c :
  0 <= r < Z.of_nat (nrows mask) -> In c cs ->
  getitem mask r c = Ok (pixel_true mask (r, c)).
Proof.
  intros Hr Hc. apply in_stride_indices in Hc.
  apply pixel_true_getitem; tauto.
Qed.

Lemma getrow_strided_ok r :
  0 <= r < Z.of_nat (nrows mask) ->
  exists row_slice, getrow_strided mask r step = Ok row_slice.
Proof.
  intros Hr. destruct (well_formed_rows _ mask_wf) as [H1 _].
  unfold getrow_strided, slice_step.
  destruct (nth_error (data mask) (Z.to_nat r)) as [row|] eqn:Er;
    [|apply nth_error_None in Er; lia].
  rewrite (py_index_of_nth (data mask) (i := r) _ Er) by (left; lia).
  simpl.
  replace (step =? 0) with false by (symmetry; apply Z.eqb_neq; lia).
  replace (step <? 0) with false by (symmetry; apply Z.ltb_ge; lia).
  eauto.
Qed.

(** One row of the unchecked loop, then the rest of the rows. *)
Lemma row_step_spec r (rest : list (Z * Z)) pts count
    (k : list (point coord) -> Z -> result (list (point coord))) :
  0 <= r < Z.of_nat (nrows mask) ->
  0 <= count < cap ->
  (forall pts' count',
      0 <= count' < cap ->
      k pts' count'
      = Ok (pts' ++ map (geo_point xy t)
                      (firstn (Z.to_nat (cap - count')) rest))) ->
  (fl <- cols_loop xy mask t max_points r cs pts count ;;
   match fl with
   | Return pts => Ok pts
   | Next (pts, count) => k pts count
   end)
  = Ok (pts ++ map (geo_point xy t)
                 (firstn (Z.to_nat (cap - count))
                         (row_hits mask cs r ++ rest))).
Proof.
  intros Hr Hcount Hk.
  rewrite cols_loop_spec by (auto using cols_in_range). cbv zeta.
  fold cap. set (hits := row_hits mask cs r).
  destruct (Z.ltb_spec (count + Z.of_nat (length hits)) cap) as [Hlt|Hge];
    cbn [bind].
  - rewrite Hk by lia.
    rewrite firstn_app_short by lia.
    rewrite map_app, <- app_assoc. do 5 f_equal. lia.
  - now rewrite firstn_app_long by lia.
Qed.

Lemma rows_loop_unchecked_spec rs :
  (forall r, In r rs -> 0 <= r < Z.of_nat (nrows mask)) ->
  forall pts count,
    0 <= count < cap ->
    rows_loop_unchecked xy mask t step max_points (Z.of_nat (ncols mask))
                        rs pts count
    = Ok (pts ++ map (geo_point xy t)
                   (firstn (Z.to_nat (cap - count))
                           (flat_map (row_hits mask cs) rs))).
Proof.
  induction rs as [|r rs IH]; intros Hrs pts count Hcount.
  - simpl. now rewrite firstn_nil, app_nil_r.
  - cbn [rows_loop_unchecked flat_map].
    rewrite py_range_stride by assumption. cbn [bind]. fold cs.
    apply row_step_spec; auto.
    + apply Hrs. now left.
    + intros. apply IH; auto. intros; apply Hrs; now right.
Qed.

Lemma rows_loop_spec rs :
  (forall r, In r rs -> 0 <= r < Z.of_nat (nrows mask)) ->
  forall pts count,
    0 <= count < cap ->
    rows_loop xy mask t step max_points (Z.of_nat (ncols mask))
              rs pts count
    = Ok (pts ++ map (geo_point xy t)
                   (firstn (Z.to_nat (cap - count))
                           (flat_map (row_hits mask cs) rs))).
Proof.
  induction rs as [|r rs IH]; intros Hrs pts count Hcount.
  - simpl. now rewrite firstn_nil, app_nil_r.
  - assert (Hr : 0 <= r < Z.of_nat (nrows mask)) by (apply Hrs; now left).
    assert (Hrs' : forall r', In r' rs -> 0 <= r' < Z.of_nat (nrows mask))
      by (intros; apply Hrs; now right).
    cbn [rows_loop flat_map].
    destruct (getrow_strided_ok Hr) as (row_slice & Hslice).
    rewrite Hslice. cbn [bind].
    destruct (any row_slice) eqn:Hany; cbn [negb].
    + rewrite py_range_stride by assumption. cbn [bind]. fold cs.
      apply row_step_spec; auto.
    + unfold cs at 1.
      rewrite (@row_without_hits mask r step row_slice
                 mask_wf step_pos Hr Hslice Hany).
      now apply IH.
Qed.

End Loops.

End SamplerProperties.

(** *** The stride grid, row by row *)

Lemma filter_row_on_stride (mask : ndarray bool) step r cs :
  filter (fun p => on_stride step p && pixel_true mask p)
         (map (fun c => (r, c)) cs)
  = if r mod step =? 0
    then row_hits mask (filter (fun c => c mod step =? 0) cs) r
    else [].
Proof.
  unfold row_hits, on_stride.
  induction cs as [|c cs IH]; simpl.
  - now destruct (r mod step =? 0).
  - rewrite IH.
    destruct (r mod step =? 0); simpl; [|reflexivity].
    destruct (c mod step =? 0); simpl; [|reflexivity].
    now destruct (pixel_true mask (r, c)).
Qed.

Lemma filter_list_prod_stride (mask : ndarray bool) step rs cs :
  filter (fun p => on_stride step p && pixel_true mask p) (list_prod rs cs)
  = flat_map (row_hits mask (filter (fun c => c mod step =? 0) cs))
             (filter (fun r => r mod step =? 0) rs).
Proof.
  induction rs as [|r rs IH]; simpl; [reflexivity|].
  rewrite filter_app, IH, filter_row_on_stride.
  now destruct (r mod step =? 0).
Qed.

(** The strided true pixels are the hits of the strided rows, in order. *)
Lemma strided_true_pixels_rows (mask : ndarray bool) step :
  strided_true_pixels mask step
  = flat_map (row_hits mask (stride_indices (ncols mask) step))
             (stride_indices (nrows mask) step).
Proof. apply filter_list_prod_stride. Qed.

Lemma in_strided_true_pixels (mask : ndarray bool) step r c :
  In (r, c) (strided_true_pixels mask step)
  <-> 0 <= r < Z.of_nat (nrows mask) /\ 0 <= c < Z.of_nat (ncols mask)
      /\ r mod step = 0 /\ c mod step = 0
      /\ pixel_true mask (r, c) = true.
Proof.
  unfold strided_true_pixels, all_pixels, on_stride.
  rewrite filter_In, in_prod_iff, !in_indices, !andb_true_iff, !Z.eqb_eq.
  simpl. tauto.
Qed.

(** *** Row-major order *)

Lemma of_nat_seq_sorted a n : StronglySorted Z.lt (map Z.of_nat (seq a n)).
Proof.
  revert a; induction n as [|n IH]; intros a; simpl; constructor.
  - apply IH.
  - apply Forall_forall. intros k Hk. apply in_map_iff in Hk.
    destruct Hk as (i & <- & Hi). apply in_seq in Hi. lia.
Qed.

Lemma StronglySorted_app (A : Type) (R : A -> A -> Prop) l1 l2 :
  StronglySorted R l1 -> StronglySorted R l2 ->
  (forall x y, In x l1 -> In y l2 -> R x y) ->
  StronglySorted R (l1 ++ l2).
Proof.
  intros H1 H2 H12. induction H1 as [|x l1 Hs IH Hx]; simpl; [exact H2|].
  constructor.
  - apply IH. intros; apply H12; simpl; auto.
  - apply Forall_app. split; [exact Hx|].
    apply Forall_forall. intros y Hy. apply H12; simpl; auto.
Qed.

Lemma StronglySorted_filter (A : Type) (R : A -> A -> Prop) (f : A -> bool) l :
  StronglySorted R l -> StronglySorted R (filter f l).
Proof.
  induction 1 as [|x l Hs IH Hx]; simpl; [constructor|].
  destruct (f x); [|exact IH].
  constructor; [exact IH|].
  apply Forall_forall. intros y Hy. apply filter_In in Hy.
  rewrite Forall_forall in Hx. apply Hx. tauto.
Qed.

Lemma StronglySorted_firstn (A : Type) (R : A -> A -> Prop) n l :
  StronglySorted R l -> StronglySorted R (firstn n l).
Proof.
  intros H. revert n. induction H as [|x l Hs IH Hx]; intros [|n]; simpl;
    try constructor.
  - apply IH.
  - apply Forall_forall. intros y Hy. rewrite Forall_forall in Hx.
    apply Hx. rewrite <- (firstn_skipn n l). apply in_or_app. now left.
Qed.

Lemma list_prod_row_major rs cs :
  StronglySorted Z.lt rs -> StronglySorted Z.lt cs ->
  StronglySorted row_major_lt (list_prod rs cs).
Proof.
  intros Hrs Hcs. induction Hrs as [|r rs Hs IH Hr]; simpl; [constructor|].
  apply StronglySorted_app.
  - clear -Hcs. induction Hcs as [|c cs Hs IH Hc]; simpl; constructor; auto.
    apply Forall_forall. intros p Hp. apply in_map_iff in Hp.
    destruct Hp as (c' & <- & Hc'). rewrite Forall_forall in Hc.
    right. simpl. split; [reflexivity | now apply Hc].
  - exact IH.
  - intros p q Hp Hq. apply in_map_iff in Hp. destruct Hp as (c & <- & _).
    destruct q as [r' c']. apply in_prod_iff in Hq. destruct Hq as [Hq _].
    rewrite Forall_forall in Hr. left. simpl. now apply Hr.
Qed.

Lemma strided_true_pixels_sorted (mask : ndarray bool) step :
  StronglySorted row_major_lt (strided_true_pixels mask step).
Proof.
  apply StronglySorted_filter, list_prod_row_major; apply of_nat_seq_sorted.
Qed.

Lemma stride_indices_in_range n step r :
  In r (stride_indices n step) -> 0 <= r < Z.of_nat n.
Proof. intros H. apply in_stride_indices in H. tauto. Qed.

(** With a step no smaller than the extent, only index 0 is on the grid. *)
Lemma stride_indices_large_step n step :
  Z.of_nat n <= step ->
  stride_indices n step = match n with O => [] | S _ => [0] end.
Proof.
  induction n as [|n IH]; intros Hn; [reflexivity|].
  rewrite stride_indices_snoc, IH by lia.
  destruct n as [|n].
  - simpl. now rewrite ?Zmod_0_l.
  - rewrite Z.mod_small by lia.
    replace (Z.of_nat (S n) =? 0) with false by (symmetry; apply Z.eqb_neq; lia).
    reflexivity.
Qed.

Lemma all_false_pixel (mask : ndarray bool) p :
  all_false mask = true -> pixel_true mask p = false.
Proof.
  unfold all_false, pixel_true. intros H.
  rewrite forallb_forall in H.
  destruct (nth_in_or_default (Z.to_nat (fst p)) (data mask) []) as [Hin | ->].
  - specialize (H _ Hin). rewrite forallb_forall in H.
    destruct (nth_in_or_default (Z.to_nat (snd p))
                (nth (Z.to_nat (fst p)) (data mask) []) false) as [Hin' | ->];
      [|reflexivity].
    specialize (H _ Hin'). now destruct (nth _ (nth _ _ _) _).
  - now destruct (Z.to_nat (snd p)).
Qed.

Lemma all_false_no_pixels (mask : ndarray bool) step :
  all_false mask = true -> strided_true_pixels mask step = [].
Proof.
  intros H. unfold strided_true_pixels. apply filter_none.
  intros p _. rewrite (all_false_pixel mask p H). apply andb_false_r.
Qed.

(** ** Point sampler *)

Section SamplerTheorems.

Variable Transform : Type.
Variable coord : Type.
Variable xy : Transform -> Z -> Z -> coord * coord.

(** With a positive step the sampler returns the points of the first
    strided true pixels in row-major order, as many as the cap allows. *)
Lemma mask_to_points_spec (mask : ndarray bool) (t : Transform)
    (step max_points : Z) :
  well_formed mask = true -> 0 < step ->
  mask_to_points xy mask t step max_points
  = Ok (map (geo_point xy t)
            (firstn (effective_cap max_points)
                    (strided_true_pixels mask step))).
Proof.
  intros Hm Hs. unfold mask_to_points, shape.
  rewrite py_range_stride by assumption. cbn [bind].
  rewrite rows_loop_spec;
    [|assumption|assumption|apply stride_indices_in_range|lia].
  now rewrite strided_true_pixels_rows, Z.sub_0_r.
Qed.

Lemma mask_to_points_unchecked_spec (mask : ndarray bool) (t : Transform)
    (step max_points : Z) :
  well_formed mask = true -> 0 < step ->
  mask_to_points_unchecked xy mask t step max_points
  = Ok (map (geo_point xy t)
            (firstn (effective_cap max_points)
                    (strided_true_pixels mask step))).
Proof.
  intros Hm Hs. unfold mask_to_points_unchecked, shape.
  rewrite py_range_stride by assumption. cbn [bind].
  rewrite rows_loop_unchecked_spec;
    [|assumption|assumption|apply stride_indices_in_range|lia].
  now rewrite strided_true_pixels_rows, Z.sub_0_r.
Qed.

(** C2: with step and cap at least one, the sampler returns at most
    [max_points] points, and exactly as many as there are true pixels on
    the stride grid when that count is within the cap; an all-false mask
    yields the empty sequence for any step and cap. *)
Theorem mask_to_points_count (mask : ndarray bool) (t : Transform)
    (step : Z) :
  well_formed mask = true -> 1 <= step ->
  (forall max_points, 1 <= max_points ->
     exists pts,
       mask_to_points xy mask t step max_points = Ok pts
       /\ Z.of_nat (length pts) <= max_points
       /\ (Z.of_nat (length (strided_true_pixels mask step)) <= max_points ->
           length pts = length (strided_true_pixels mask step)))
  /\ (all_false mask = true ->
      forall max_points, mask_to_points xy mask t step max_points = Ok []).
Proof.
  intros Hm Hs. split.
  - intros max_points Hcap. eexists. split.
    + apply mask_to_points_spec; [assumption | lia].
    + rewrite length_map, length_firstn. unfold effective_cap. split; lia.
  - intros Hf max_points.
    rewrite mask_to_points_spec by (assumption || lia).
    rewrite all_false_no_pixels by assumption.
    now rewrite firstn_nil.
Qed.

(** C3: the pixels behind the returned points are strictly increasing in
    row-major order and are exactly the first strided true pixels in that
    order, as many as the cap allows; on a 4x4 all-true mask with step 2
    and cap 3 the points are those of (0,0), (0,2), (2,0). *)
Theorem mask_to_points_row_major :
  (forall (mask : ndarray bool) (t : Transform) (step max_points : Z),
      well_formed mask = true -> 1 <= step ->
      exists pixels,
        mask_to_points xy mask t step max_points
        = Ok (map (geo_point xy t) pixels)
        /\ StronglySorted row_major_lt pixels
        /\ pixels = firstn (Z.to_nat (Z.max 1 max_points))
                           (strided_true_pixels mask step))
  /\ (forall t : Transform,
        mask_to_points xy all_true_4x4 t 2 3
        = Ok (map (geo_point xy t) [(0, 0); (0, 2); (2, 0)])).
Proof.
  split.
  - intros mask t step max_points Hm Hs. eexists. split; [|split].
    + apply mask_to_points_spec; [assumption | lia].
    + apply StronglySorted_firstn, strided_true_pixels_sorted.
    + reflexivity.
  - intros t. rewrite mask_to_points_spec by (reflexivity || lia).
    reflexivity.
Qed.

(** C7: the row pre-check has no observable effect: the sampler and its
    variant without the pre-check return the same result for every
    well-formed mask, transform, step and cap. *)
Theorem row_precheck_unobservable (mask : ndarray bool) (t : Transform)
    (step max_points : Z) :
  well_formed mask = true ->
  mask_to_points xy mask t step max_points
  = mask_to_points_unchecked xy mask t step max_points.
Proof.
  intros Hm.
  destruct (Z.lt_trichotomy step 0) as [Hneg | [-> | Hpos]].
  - unfold mask_to_points, mask_to_points_unchecked, shape.
    now rewrite py_range_negative_step by assumption.
  - reflexivity.
  - now rewrite mask_to_points_spec, mask_to_points_unchecked_spec.
Qed.

(** C9: with a step larger than both dimensions of the mask the sampler
    yields the single point of pixel (0,0) when [mask[0,0]] is true and
    nothing otherwise. *)
Theorem mask_to_points_large_step (mask : ndarray bool) (t : Transform)
    (step max_points : Z) :
  well_formed mask = true ->
  Z.of_nat (nrows mask) < step -> Z.of_nat (ncols mask) < step ->
  mask_to_points xy mask t step max_points
  = Ok (match getitem mask 0 0 with
        | Ok true => [geo_point xy t (0, 0)]
        | _ => []
        end).
Proof.
  intros Hm Hr Hc.
  rewrite mask_to_points_spec by (assumption || lia). f_equal.
  rewrite strided_true_pixels_rows, !stride_indices_large_step by lia.
  destruct (well_formed_rows _ Hm) as [H1 H2].
  destruct (nrows mask) as [|nr] eqn:Er.
  - destruct (data mask) as [|row rows] eqn:Ed; [|discriminate].
    unfold getitem. rewrite Ed. now rewrite firstn_nil.
  - destruct (ncols mask) as [|nc] eqn:Ec.
    + destruct (data mask) as [|row rows] eqn:Ed; [discriminate|].
      assert (Hrow : length row = O) by (apply H2; now left).
      destruct row; [|discriminate].
      assert (G : py_index ((@nil bool) :: rows) 0 = Ok [])
        by (apply py_index_of_nth with (j := O); [reflexivity | now left]).
      unfold getitem. rewrite Ed, G. cbn. now rewrite firstn_nil.
    + rewrite (pixel_true_getitem mask Hm) by lia.
      cbn [flat_map row_hits filter map app].
      unfold row_hits. cbn [filter].
      unfold effective_cap.
      destruct (Z.to_nat (Z.max 1 max_points)) as [|n] eqn:En; [lia|].
      destruct (pixel_true mask (0, 0)); cbn [map app firstn];
        now rewrite ?firstn_nil.
Qed.

End SamplerTheorems.

(** *** The sampler on concrete masks *)

Example mask_to_points_example_mask :
  mask_to_points unit_xy example_mask (0, 0) 2 10
  = Ok [(0, 0); (0, 2); (0, 4); (-2, 4)].
Proof. reflexivity. Qed.

Example mask_to_points_example_mask_capped :
  mask_to_points unit_xy example_mask (0, 0) 2 3
  = Ok [(0, 0); (0, 2); (0, 4)].
Proof. reflexivity. Qed.

Example mask_to_points_zero_step :
  mask_to_points unit_xy example_mask (0, 0) 0 3 = Raise ValueError.
Proof. reflexivity. Qed.

(** A step that exceeds only the number of rows still samples along the
    single strided row. *)
Example mask_to_points_step_above_rows_only :
  mask_to_points unit_xy example_mask (0, 0) 4 10 = Ok [(0, 0); (0, 4)].
Proof. reflexivity. Qed.

Lemma mask_to_points_count_witness :
  (exists pts,
      mask_to_points unit_xy example_mask (0, 0) 2 10 = Ok pts
      /\ Z.of_nat (length pts) <= 10 /\ length pts = 4%nat)
  /\ mask_to_points unit_xy all_false_2x3 (0, 0) 2 10 = Ok [].
Proof.
  split.
  - destruct (@mask_to_points_count (Z * Z) Z unit_xy example_mask (0, 0) 2
                eq_refl ltac:(lia)) as [H _].
    destruct (H 10 ltac:(lia)) as (pts & E & Hle & Hlen).
    exists pts. repeat split; auto.
    rewrite Hlen; [reflexivity | vm_compute; discriminate].
  - apply (@mask_to_points_count (Z * Z) Z unit_xy all_false_2x3 (0, 0) 2
             eq_refl ltac:(lia)).
    reflexivity.
Defined.

Lemma mask_to_points_row_major_witness :
  exists pixels,
    mask_to_points unit_xy example_mask (0, 0) 2 3
    = Ok (map (geo_point unit_xy (0, 0)) pixels)
    /\ StronglySorted row_major_lt pixels
    /\ pixels = firstn (Z.to_nat (Z.max 1 3))
                       (strided_true_pixels example_mask 2).
Proof.
  apply (proj1 (@mask_to_points_row_major (Z * Z) Z unit_xy));
    [reflexivity | lia].
Defined.

Lemma row_precheck_unobservable_witness :
  mask_to_points unit_xy example_mask (0, 0) 2 3
  = mask_to_points_unchecked unit_xy example_mask (0, 0) 2 3.
Proof.
  apply (@row_precheck_unobservable (Z * Z) Z unit_xy example_mask (0, 0) 2 3).
  reflexivity.
Defined.

Lemma mask_to_points_large_step_witness :
  mask_to_points unit_xy example_mask (0, 0) 8 10
  = Ok (match getitem example_mask 0 0 with
        | Ok true => [geo_point unit_xy (0, 0) (0, 0)]
        | _ => []
        end).
Proof.
  apply (@mask_to_points_large_step (Z * Z) Z unit_xy example_mask (0, 0) 8 10);
    [reflexivity | simpl; lia | simpl; lia].
Defined.

(** ** Tabular exporter *)

Lemma points_to_dataframe_columns (coord : Type) (points : list (coord * coord)) :
  columns (points_to_dataframe points) = ["latitude"; "longitude"]%string.
Proof.
  destruct points as [|p points]; [reflexivity|].
  unfold points_to_dataframe. now destruct (split (p :: points)).
Qed.

Lemma append_empty_r (s : string) : (s ++ "")%string = s.
Proof. induction s as [|c s IH]; simpl; [reflexivity | now rewrite IH]. Qed.

(** C8: the table of the empty point sequence has the two columns
    latitude and longitude and no rows, and its CSV text is the header line
    [latitude,longitude] alone. *)
Theorem empty_points_table (coord : Type) (show : coord -> string)
    (lineterminator : string) :
  let df := points_to_dataframe (@nil (coord * coord)) in
  columns df = ["latitude"; "longitude"]%string
  /\ row_count df = O
  /\ table_rows df = []
  /\ to_csv show lineterminator df
     = ("latitude,longitude" ++ lineterminator)%string.
Proof.
  repeat split. unfold to_csv; simpl.
  now rewrite append_empty_r.
Qed.

Example empty_points_csv :
  to_csv show_int (String "010" EmptyString)
         (points_to_dataframe (@nil (Z * Z)))
  = String.append "latitude,longitude" (String "010" EmptyString).
Proof. reflexivity. Qed.

Example two_points_csv :
  to_csv show_int (String "010" EmptyString)
         (points_to_dataframe [(0, 2); (-2, 4)])
  = String.concat (String "010" EmptyString)
      ["latitude,longitude"; "0,2"; "-2,4"; ""]%string.
Proof. reflexivity. Qed.

(** ** The loop over comparison pairs *)

Lemma shape_eqb_neq (s1 s2 : Z * Z) : s1 <> s2 -> shape_eqb s1 s2 = false.
Proof.
  destruct s1 as [r1 c1], s2 as [r2 c2]. unfold shape_eqb. simpl. intros H.
  destruct (Z.eqb_spec r1 r2) as [->|]; [|reflexivity].
  destruct (Z.eqb_spec c1 c2) as [->|]; [|reflexivity].
  now contradiction H.
Qed.

Section DashboardProperties.

Variable Transform : Type.
Variable coord : Type.
Variable xy : Transform -> Z -> Z -> coord * coord.
Variable midpoint : coord -> coord -> coord.
Variable show_coord : coord -> string.
Variable loaded : loaded_t Transform coord.
Variable widgets : string -> controls.

Let body := pair_body xy midpoint show_coord loaded widgets.
Let run := run_pairs xy midpoint show_coord loaded widgets.

Lemma run_pairs_app (before after : pairs_t) shown :
  run before = (shown, Ok tt) ->
  run (before ++ after) = (shown ++ fst (run after), snd (run after)).
Proof.
  unfold run. revert shown.
  induction before as [|p before IH]; intros shown H; simpl in *.
  - inversion H; subst. now destruct (run_pairs _ _ _ _ _ after).
  - destruct (pair_body xy midpoint show_coord loaded widgets p)
      as [shown1 [[]|e]]; [|discriminate].
    destruct (run_pairs xy midpoint show_coord loaded widgets before)
      as [shown2 r2] eqn:E2.
    inversion H; subst. rewrite (IH shown2 eq_refl).
    now rewrite app_assoc.
Qed.

Lemma run_pairs_cons (p : string * string * string) (rest : pairs_t) shown :
  body p = (shown, Ok tt) ->
  run (p :: rest) = (shown ++ fst (run rest), snd (run rest)).
Proof.
  unfold run, body. intros H. simpl. rewrite H.
  now destruct (run_pairs xy midpoint show_coord loaded widgets rest).
Qed.

(** C6: a pair of loaded masks whose shapes differ is reported with one
    error that shows both shapes, nothing else of that comparison runs,
    and the comparisons before and after it run as they do without it. *)
Theorem shape_mismatch_skipped (title a_key b_key : string)
    (ea eb : entry Transform coord) :
  lookup loaded a_key = Ok ea -> lookup loaded b_key = Ok eb ->
  shape (arr ea) <> shape (arr eb) ->
  let report :=
    EvError coord
      ("Shape mismatch for " ++ title ++ ": " ++ show_shape (shape (arr ea))
       ++ " vs " ++ show_shape (shape (arr eb))
       ++ ". Ensure same export region/scale.")%string in
  body (title, a_key, b_key) = ([report], Ok tt)
  /\ forall before after shown,
      run before = (shown, Ok tt) ->
      run (before ++ (title, a_key, b_key) :: after)
      = (shown ++ report :: fst (run after), snd (run after)).
Proof.
  intros Ha Hb Hne report.
  assert (Hbody : body (title, a_key, b_key) = ([report], Ok tt)).
  { unfold body, pair_body. rewrite Ha, Hb.
    now rewrite (shape_eqb_neq Hne). }
  split; [exact Hbody|].
  intros before after shown Hbefore.
  rewrite (@run_pairs_app before _ shown Hbefore).
  now rewrite (@run_pairs_cons _ after _ Hbody).
Qed.

End DashboardProperties.

Example shape_mismatch_100_101 :
  build_pairs example_loaded
  = [("5y → 2y", "5y", "2y"); ("2y → 3m", "2y", "3m")]%string
  /\ compute_changes (full 100 100 0) (full 100 101 0) = Raise ValueError
  /\ example_run [("5y → 2y", "5y", "2y")%string]
     = ([EvError Z
           "Shape mismatch for 5y → 2y: (100, 100) vs (100, 101). Ensure same export region/scale."],
        Ok tt)
  /\ snd (example_run (build_pairs example_loaded)) = Ok tt
  /\ length (fst (example_run (build_pairs example_loaded))) = 7%nat.
Proof. vm_compute. repeat split. Qed.

Lemma shape_mismatch_skipped_witness :
  let report :=
    EvError Z
      "Shape mismatch for 5y → 2y: (100, 100) vs (100, 101). Ensure same export region/scale." in
  example_run [("5y → 2y", "5y", "2y")%string] = ([report], Ok tt)
  /\ example_run (build_pairs example_loaded)
     = (report :: fst (example_run [("2y → 3m", "2y", "3m")%string]),
        snd (example_run [("2y → 3m", "2y", "3m")%string])).
Proof.
  destruct (@shape_mismatch_skipped (Z * Z) Z unit_xy example_midpoint show_int
              example_loaded example_widgets "5y → 2y" "5y" "2y"
              (example_entry 100 "trash_5y.tif")
              (example_entry 101 "trash_2y.tif")
              eq_refl eq_refl ltac:(discriminate)) as [Hbody Hrun].
  split.
  - exact Hbody.
  - exact (Hrun [] [("2y → 3m", "2y", "3m")%string] [] eq_refl).
Defined.


(** * Further properties of the code *)

(** ** Change engine: broadcasting, symmetry, self-comparison *)

Lemma broadcast_dim_comm n m : broadcast_dim n m = broadcast_dim m n.
Proof.
  unfold broadcast_dim.
  destruct (Nat.eqb_spec n m) as [->|Hnm].
  - now rewrite Nat.eqb_refl.
  - destruct (Nat.eqb_spec m n) as [->|_]; [now contradiction Hnm|].
    destruct (Nat.eqb_spec n 1) as [->|Hn], (Nat.eqb_spec m 1) as [->|Hm];
      reflexivity.
Qed.

Lemma broadcast_dim_raises n m e : broadcast_dim n m = Raise e -> e = ValueError.
Proof.
  unfold broadcast_dim.
  destruct (n =? m)%nat; [discriminate|].
  destruct (n =? 1)%nat; [discriminate|].
  destruct (m =? 1)%nat; [discriminate|].
  congruence.
Qed.

Lemma broadcast_dim_ok_iff n m :
  (exists k, broadcast_dim n m = Ok k) <-> broadcastable n m = true.
Proof.
  unfold broadcast_dim, broadcastable.
  destruct (n =? m)%nat; [split; eauto|].
  destruct (n =? 1)%nat; [split; eauto|].
  destruct (m =? 1)%nat; [split; eauto|].
  split; [intros (k & H); discriminate | discriminate].
Qed.

Lemma zip_with_comm (A B C : Type) (f : A -> B -> C) (g : B -> A -> C) l1 l2 :
  (forall x y, f x y = g y x) -> zip_with f l1 l2 = zip_with g l2 l1.
Proof.
  intros H. revert l2; induction l1 as [|a l1 IH]; intros [|b l2]; simpl; auto.
  now rewrite H, IH.
Qed.

Lemma and_arrays_comm x y : and_arrays x y = and_arrays y x.
Proof.
  unfold and_arrays, binop.
  rewrite (broadcast_dim_comm (nrows y)), (broadcast_dim_comm (ncols y)).
  destruct (broadcast_dim (nrows x) (nrows y)) as [r|e]; [|reflexivity].
  destruct (broadcast_dim (ncols x) (ncols y)) as [c|e]; [|reflexivity].
  simpl. do 2 f_equal. apply zip_with_comm. intros rx ry.
  apply zip_with_comm. intros; apply andb_comm.
Qed.

Lemma and_arrays_raises x y e : and_arrays x y = Raise e -> e = ValueError.
Proof.
  unfold and_arrays, binop.
  destruct (broadcast_dim (nrows x) (nrows y)) as [r|e1] eqn:Er.
  - destruct (broadcast_dim (ncols x) (ncols y)) as [c|e2] eqn:Ec;
      simpl; [discriminate|].
    intros H; inversion H; subst. eapply broadcast_dim_raises; eauto.
  - simpl. intros H; inversion H; subst. eapply broadcast_dim_raises; eauto.
Qed.

Lemma and_arrays_ok_iff x y :
  (exists m, and_arrays x y = Ok m)
  <-> broadcastable (nrows x) (nrows y) && broadcastable (ncols x) (ncols y)
      = true.
Proof.
  rewrite andb_true_iff, <- !broadcast_dim_ok_iff.
  unfold and_arrays, binop. split.
  - intros (m & H).
    destruct (broadcast_dim (nrows x) (nrows y)) as [r|e]; [|discriminate].
    destruct (broadcast_dim (ncols x) (ncols y)) as [c|e]; [|discriminate].
    eauto.
  - intros [(r & ->) (c & ->)]. simpl. eauto.
Qed.

(** X1: Swapping the two masks swaps the two outputs, also when the shapes
    broadcast or the comparison raises. *)
Theorem compute_changes_swap (a b : ndarray Z) :
  compute_changes b a
  = match compute_changes a b with
    | Ok (new_mask, cleaned_mask) => Ok (cleaned_mask, new_mask)
    | Raise e => Raise e
    end.
Proof.
  unfold compute_changes.
  rewrite (and_arrays_comm (eq_scalar b 0)), (and_arrays_comm (gt_scalar b 0)).
  destruct (and_arrays (eq_scalar a 0) (gt_scalar b 0)) as [n|e1] eqn:E1;
    destruct (and_arrays (gt_scalar a 0) (eq_scalar b 0)) as [c|e2] eqn:E2;
    simpl; try reflexivity.
  apply and_arrays_raises in E1, E2. now subst.
Qed.

(** X2: [compute_changes] raises exactly when a pair of extents does not
    broadcast (differs with neither being 1), and then it is the
    [ValueError] of numpy. *)
Theorem compute_changes_raises_iff (a b : ndarray Z) :
  (compute_changes a b = Raise ValueError
   <-> broadcastable (nrows a) (nrows b) && broadcastable (ncols a) (ncols b)
       = false)
  /\ (forall e, compute_changes a b = Raise e -> e = ValueError).
Proof.
  assert (Hshape : forall p q : Z -> bool,
            (exists m, and_arrays (map_array p a) (map_array q b) = Ok m)
            <-> broadcastable (nrows a) (nrows b)
                && broadcastable (ncols a) (ncols b) = true)
    by (intros; apply and_arrays_ok_iff).
  unfold compute_changes, eq_scalar, gt_scalar.
  destruct (broadcastable (nrows a) (nrows b)
            && broadcastable (ncols a) (ncols b)) eqn:Hb.
  - destruct (proj2 (Hshape (fun v => v =? 0) (fun v => v >? 0)) eq_refl)
      as (n & ->).
    destruct (proj2 (Hshape (fun v => v >? 0) (fun v => v =? 0)) eq_refl)
      as (c & ->).
    simpl. split; [split; discriminate | discriminate].
  - destruct (and_arrays (map_array (fun v => v =? 0) a)
                         (map_array (fun v => v >? 0) b)) as [n|e] eqn:E.
    + pose proof (proj1 (Hshape (fun v => v =? 0) (fun v => v >? 0))
                    (ex_intro _ n E)).
      discriminate.
    + apply and_arrays_raises in E. subst e. simpl.
      split; [tauto | congruence].
Qed.

Lemma zip_with_diag (A C : Type) (f : A -> A -> C) l :
  zip_with f l l = map (fun x => f x x) l.
Proof. induction l as [|x l IH]; simpl; [reflexivity | now rewrite IH]. Qed.

Lemma map_const_repeat (A C : Type) (g : A -> C) (k : C) l :
  (forall x, In x l -> g x = k) -> map g l = repeat k (length l).
Proof.
  induction l as [|x l IH]; intros H; simpl; [reflexivity|].
  rewrite H by now left. f_equal. apply IH. intros; apply H; now right.
Qed.

(** X3: A mask compared with itself shows no change: both outputs are the
    all-false array of its shape. *)
Theorem compute_changes_self (a : ndarray Z) :
  well_formed a = true ->
  compute_changes a a
  = Ok (full (nrows a) (ncols a) false, full (nrows a) (ncols a) false).
Proof.
  intros Ha. rewrite compute_changes_same_shape by auto.
  destruct (well_formed_rows _ Ha) as [H1 H2].
  assert (Hdiag : forall f : Z -> Z -> bool,
            (forall v, f v v = false) ->
            zip_with (zip_with f) (data a) (data a)
            = repeat (repeat false (ncols a)) (nrows a)).
  { intros f Hf. rewrite zip_with_diag, <- H1.
    apply map_const_repeat. intros row Hin.
    rewrite zip_with_diag, <- (H2 row Hin).
    apply map_const_repeat. intros v _. apply Hf. }
  unfold full. rewrite !Hdiag; [reflexivity| |]; intros v.
  - unfold is_cleaned.
    destruct (Z.eqb_spec v 0) as [->|]; [reflexivity | apply andb_false_r].
  - unfold is_new. destruct (Z.eqb_spec v 0) as [->|]; reflexivity.
Qed.

Lemma compute_changes_self_witness :
  compute_changes example_A example_A
  = Ok (full (nrows example_A) (ncols example_A) false,
        full (nrows example_A) (ncols example_A) false).
Proof. apply (@compute_changes_self example_A). reflexivity. Defined.

(** ** Point sampler: steps, caps, membership *)

Lemma in_firstn (A : Type) (n : nat) (l : list A) x :
  In x (firstn n l) -> In x l.
Proof.
  intros H. rewrite <- (firstn_skipn n l). apply in_or_app. now left.
Qed.

Lemma firstn_prefix (A : Type) (n m : nat) (l : list A) :
  (n <= m)%nat -> firstn m l = firstn n l ++ firstn (m - n) (skipn n l).
Proof.
  intros H. rewrite <- (firstn_skipn n l) at 1.
  rewrite firstn_app, length_firstn.
  destruct (Nat.le_ge_cases n (length l)) as [Hl|Hl].
  - rewrite Nat.min_l by assumption. rewrite firstn_all2; [reflexivity|].
    rewrite length_firstn. lia.
  - rewrite (skipn_all2 l) by assumption. rewrite !firstn_nil.
    rewrite firstn_all2; [reflexivity|]. rewrite length_firstn. lia.
Qed.

(** The elements of a strided slice sit at the multiples of the step. *)
Lemma every_nth_from (A : Type) (s : nat) (l : list A) x :
  (0 < s)%nat ->
  forall k, (k < s)%nat -> In x (every_nth k s l) ->
  exists i, nth_error l (k + i * s) = Some x.
Proof.
  intros Hs. induction l as [|y l IH]; intros k Hk Hin; simpl in Hin.
  - contradiction.
  - destruct k as [|k].
    + destruct Hin as [-> | Hin].
      * exists O. reflexivity.
      * destruct (IH (Nat.pred s) ltac:(lia) Hin) as (i & Hi).
        exists (S i).
        replace (0 + S i * s)%nat with (S (Nat.pred s + i * s)) by lia.
        exact Hi.
    + destruct (IH k ltac:(lia) Hin) as (i & Hi).
      exists i. exact Hi.
Qed.

Section SamplerBehaviour.

Variable Transform : Type.
Variable coord : Type.
Variable xy : Transform -> Z -> Z -> coord * coord.

(** X4: The sampler by the sign of the step: a zero step raises the
    [ValueError] of [range], a negative step visits no row, and a positive
    step never raises on a well-formed mask. *)
Theorem mask_to_points_by_step (mask : ndarray bool) (t : Transform)
    (step max_points : Z) :
  well_formed mask = true ->
  mask_to_points xy mask t step max_points
  = if step =? 0 then Raise ValueError
    else if step <? 0 then Ok []
    else Ok (map (geo_point xy t)
                 (firstn (Z.to_nat (Z.max 1 max_points))
                         (strided_true_pixels mask step))).
Proof.
  intros Hm.
  destruct (Z.eqb_spec step 0) as [->|Hz]; [reflexivity|].
  destruct (Z.ltb_spec step 0) as [Hneg|Hpos].
  - unfold mask_to_points, shape.
    now rewrite py_range_negative_step by assumption.
  - apply mask_to_points_spec; [assumption | lia].
Qed.

(** X5: The cap is tested only after a point is appended: with a cap of zero
    or below the sampler still returns the first strided true pixel. *)
Theorem mask_to_points_cap_below_one (mask : ndarray bool) (t : Transform)
    (step max_points : Z) :
  well_formed mask = true -> 1 <= step -> max_points <= 0 ->
  mask_to_points xy mask t step max_points
  = Ok (map (geo_point xy t) (firstn 1 (strided_true_pixels mask step))).
Proof.
  intros Hm Hs Hcap. rewrite mask_to_points_spec by (assumption || lia).
  unfold effective_cap. now replace (Z.to_nat (Z.max 1 max_points)) with 1%nat by lia.
Qed.

(** X6: Raising the cap only appends: the points for a smaller cap are a
    prefix of the points for a larger one. *)
Theorem mask_to_points_cap_monotone (mask : ndarray bool) (t : Transform)
    (step cap1 cap2 : Z) :
  well_formed mask = true -> 1 <= step -> cap1 <= cap2 ->
  exists pts1 more,
    mask_to_points xy mask t step cap1 = Ok pts1
    /\ mask_to_points xy mask t step cap2 = Ok (pts1 ++ more).
Proof.
  intros Hm Hs Hcap.
  rewrite !mask_to_points_spec by (assumption || lia).
  unfold effective_cap.
  rewrite (@firstn_prefix _ (Z.to_nat (Z.max 1 cap1)) (Z.to_nat (Z.max 1 cap2)))
    by lia.
  rewrite map_app. eauto.
Qed.

(** X7: Every returned point is the point of a pixel of the mask that is true
    and whose row and column are multiples of the step. *)
Theorem mask_to_points_sound (mask : ndarray bool) (t : Transform)
    (step max_points : Z) (pts : list (point coord)) (p : point coord) :
  well_formed mask = true -> 1 <= step ->
  mask_to_points xy mask t step max_points = Ok pts ->
  In p pts ->
  exists r c,
    p = geo_point xy t (r, c)
    /\ 0 <= r < Z.of_nat (nrows mask) /\ 0 <= c < Z.of_nat (ncols mask)
    /\ r mod step = 0 /\ c mod step = 0
    /\ getitem mask r c = Ok true.
Proof.
  intros Hm Hs Hrun Hin.
  rewrite mask_to_points_spec in Hrun by (assumption || lia).
  inversion Hrun; subst pts; clear Hrun.
  apply in_map_iff in Hin. destruct Hin as ([r c] & <- & Hin).
  apply in_firstn, in_strided_true_pixels in Hin.
  destruct Hin as (Hr & Hc & Hrm & Hcm & Hv).
  exists r, c. repeat split; try tauto.
  rewrite pixel_true_getitem by assumption. now rewrite Hv.
Qed.

(** X8: When the strided true pixels fit under the cap, none is left out. *)
Theorem mask_to_points_complete (mask : ndarray bool) (t : Transform)
    (step max_points r c : Z) :
  well_formed mask = true -> 1 <= step ->
  Z.of_nat (length (strided_true_pixels mask step)) <= max_points ->
  0 <= r < Z.of_nat (nrows mask) -> 0 <= c < Z.of_nat (ncols mask) ->
  r mod step = 0 -> c mod step = 0 ->
  getitem mask r c = Ok true ->
  exists pts,
    mask_to_points xy mask t step max_points = Ok pts
    /\ In (geo_point xy t (r, c)) pts.
Proof.
  intros Hm Hs Hfit Hr Hc Hrm Hcm Hv.
  rewrite mask_to_points_spec by (assumption || lia).
  eexists. split; [reflexivity|].
  apply in_map. unfold effective_cap. rewrite firstn_all2 by lia.
  apply in_strided_true_pixels. repeat split; try tauto.
  rewrite pixel_true_getitem in Hv by assumption. congruence.
Qed.

End SamplerBehaviour.

Lemma mask_to_points_by_step_witness :
  mask_to_points unit_xy example_mask (0, 0) (-2) 10 = Ok [].
Proof.
  apply (@mask_to_points_by_step (Z * Z) Z unit_xy example_mask (0, 0) (-2) 10).
  reflexivity.
Defined.

Lemma mask_to_points_cap_below_one_witness :
  mask_to_points unit_xy example_mask (0, 0) 2 0
  = Ok (map (geo_point unit_xy (0, 0))
            (firstn 1 (strided_true_pixels example_mask 2))).
Proof.
  apply (@mask_to_points_cap_below_one (Z * Z) Z unit_xy example_mask (0, 0) 2 0);
    [reflexivity | lia | lia].
Defined.

Lemma mask_to_points_cap_monotone_witness :
  exists pts1 more,
    mask_to_points unit_xy example_mask (0, 0) 2 2 = Ok pts1
    /\ mask_to_points unit_xy example_mask (0, 0) 2 10 = Ok (pts1 ++ more).
Proof.
  apply (@mask_to_points_cap_monotone (Z * Z) Z unit_xy example_mask (0, 0) 2 2 10);
    [reflexivity | lia | lia].
Defined.

Lemma mask_to_points_sound_witness :
  exists r c,
    (0, 2) = geo_point unit_xy (0, 0) (r, c)
    /\ 0 <= r < Z.of_nat (nrows example_mask)
    /\ 0 <= c < Z.of_nat (ncols example_mask)
    /\ r mod 2 = 0 /\ c mod 2 = 0
    /\ getitem example_mask r c = Ok true.
Proof.
  apply (@mask_to_points_sound (Z * Z) Z unit_xy example_mask (0, 0) 2 10
           [(0, 0); (0, 2); (0, 4); (-2, 4)] (0, 2));
    [reflexivity | lia | reflexivity | simpl; tauto].
Defined.

Lemma mask_to_points_complete_witness :
  exists pts,
    mask_to_points unit_xy example_mask (0, 0) 2 10 = Ok pts
    /\ In (geo_point unit_xy (0, 0) (2, 4)) pts.
Proof.
  apply (@mask_to_points_complete (Z * Z) Z unit_xy example_mask (0, 0) 2 10 2 4);
    try reflexivity; simpl; lia.
Defined.

(** X10: The row pre-check passes exactly when the row holds a true pixel in
    a column that the inner loop visits. *)
Theorem row_precheck_meaning (mask : ndarray bool) (r step : Z) :
  well_formed mask = true -> 1 <= step ->
  0 <= r < Z.of_nat (nrows mask) ->
  exists row_slice,
    getrow_strided mask r step = Ok row_slice
    /\ (any row_slice = true
        <-> exists c, 0 <= c < Z.of_nat (ncols mask) /\ c mod step = 0
                      /\ getitem mask r c = Ok true).
Proof.
  intros Hm Hs Hr.
  destruct (well_formed_rows _ Hm) as [H1 H2].
  destruct (nth_error (data mask) (Z.to_nat r)) as [row|] eqn:Er;
    [|apply nth_error_None in Er; lia].
  assert (Hlen : length row = ncols mask)
    by (apply H2; eapply nth_error_In; eauto).
  assert (Hslice : getrow_strided mask r step
                   = Ok (every_nth 0 (Z.to_nat step) row)).
  { unfold getrow_strided, slice_step.
    rewrite (py_index_of_nth (data mask) (i := r) _ Er) by (left; lia).
    simpl.
    replace (step =? 0) with false by (symmetry; apply Z.eqb_neq; lia).
    now replace (step <? 0) with false by (symmetry; apply Z.ltb_ge; lia). }
  eexists. split; [exact Hslice|]. split.
  - intros Hany. unfold any in Hany. apply existsb_exists in Hany.
    destruct Hany as (v & Hin & ->).
    apply every_nth_from in Hin; try lia. destruct Hin as (i & Hi).
    simpl in Hi.
    assert (Hlt : (i * Z.to_nat step < length row)%nat)
      by (apply nth_error_Some; congruence).
    exists (Z.of_nat i * step).
    assert (Hidx : Z.to_nat (Z.of_nat i * step) = (i * Z.to_nat step)%nat)
      by (rewrite Z2Nat.inj_mul, Nat2Z.id by lia; reflexivity).
    assert (Hc : 0 <= Z.of_nat i * step < Z.of_nat (ncols mask)).
    { split; [nia|]. rewrite <- Hlen.
      apply Z2Nat.inj_lt; [nia | lia |]. rewrite Hidx, Nat2Z.id. exact Hlt. }
    split; [exact Hc|]. split; [apply Z.mod_mul; lia|].
    rewrite pixel_true_getitem by assumption. f_equal.
    unfold pixel_true. simpl. rewrite (nth_error_nth _ _ [] Er).
    rewrite Hidx. now apply nth_error_nth.
  - intros (c & Hc & Hmod & Hv).
    destruct (any (every_nth 0 (Z.to_nat step) row)) eqn:Hany; [reflexivity|].
    exfalso.
    assert (Hnone := @row_without_hits mask r step _ Hm ltac:(lia) Hr
                        Hslice Hany).
    assert (Hin : In (r, c) (row_hits mask (stride_indices (ncols mask) step) r)).
    { unfold row_hits. apply in_map, filter_In. split.
      - apply in_stride_indices. tauto.
      - rewrite pixel_true_getitem in Hv by assumption. congruence. }
    rewrite Hnone in Hin. contradiction.
Qed.

Lemma row_precheck_meaning_witness :
  exists row_slice,
    getrow_strided example_mask 2 2 = Ok row_slice
    /\ (any row_slice = true
        <-> exists c, 0 <= c < Z.of_nat (ncols example_mask) /\ c mod 2 = 0
                      /\ getitem example_mask 2 c = Ok true).
Proof.
  apply (@row_precheck_meaning example_mask 2 2); [reflexivity | lia | simpl; lia].
Defined.

Section SampledLayers.

Variable Transform : Type.
Variable coord : Type.
Variable xy : Transform -> Z -> Z -> coord * coord.

(** X11: Sampling the two outputs of [compute_changes]: every pixel behind a
    point of the new layer has A zero and B positive, and every pixel
    behind a point of the cleaned layer has A positive and B zero, so no
    pixel is drawn on both layers. *)
Theorem sampled_layers_are_changes (a b : ndarray Z) (t : Transform)
    (step max_points : Z) :
  well_formed a = true -> well_formed b = true -> shape a = shape b ->
  1 <= step ->
  exists new_mask cleaned_mask new_pixels cleaned_pixels,
    compute_changes a b = Ok (new_mask, cleaned_mask)
    /\ mask_to_points xy new_mask t step max_points
       = Ok (map (geo_point xy t) new_pixels)
    /\ mask_to_points xy cleaned_mask t step max_points
       = Ok (map (geo_point xy t) cleaned_pixels)
    /\ (forall r c, In (r, c) new_pixels ->
          exists va vb, getitem a r c = Ok va /\ getitem b r c = Ok vb
                        /\ va = 0 /\ 0 < vb)
    /\ (forall r c, In (r, c) cleaned_pixels ->
          exists va vb, getitem a r c = Ok va /\ getitem b r c = Ok vb
                        /\ 0 < va /\ vb = 0)
    /\ (forall p, In p new_pixels -> ~ In p cleaned_pixels).
Proof.
  intros Ha Hb Hs Hstep.
  destruct (shape_eq_inv Hs) as [Hr Hc].
  set (new_mask := mk_ndarray (nrows a) (ncols a)
                     (zip_with (zip_with is_new) (data a) (data b))).
  set (cleaned_mask := mk_ndarray (nrows a) (ncols a)
                         (zip_with (zip_with is_cleaned) (data a) (data b))).
  assert (Hn : well_formed new_mask = true) by now apply zip_rows_well_formed.
  assert (Hcl : well_formed cleaned_mask = true)
    by now apply zip_rows_well_formed.
  assert (Hcell : forall (f : Z -> Z -> bool) r c n,
            In (r, c) (firstn n (strided_true_pixels
                         (mk_ndarray (nrows a) (ncols a)
                            (zip_with (zip_with f) (data a) (data b))) step)) ->
            exists va vb, getitem a r c = Ok va /\ getitem b r c = Ok vb
                          /\ f va vb = true).
  { intros f r c n Hin.
    apply in_firstn, in_strided_true_pixels in Hin.
    destruct Hin as (Hrr & Hcc & _ & _ & Hv). simpl in Hrr, Hcc.
    destruct (@getitem_in_range _ a r c Ha Hrr Hcc) as (_ & va & _ & _ & Ga).
    destruct (@getitem_in_range _ b r c Hb) as (_ & vb & _ & _ & Gb); try lia.
    exists va, vb. repeat split; auto.
    pose proof (getitem_zip f a b r c Ha Hb Hr Hc Ga Gb) as G.
    rewrite pixel_true_getitem in G
      by (auto using zip_rows_well_formed; simpl; lia).
    rewrite Hv in G. congruence. }
  exists new_mask, cleaned_mask.
  exists (firstn (effective_cap max_points) (strided_true_pixels new_mask step)).
  exists (firstn (effective_cap max_points)
            (strided_true_pixels cleaned_mask step)).
  split; [now apply compute_changes_same_shape|].
  split; [apply mask_to_points_spec; [assumption | lia]|].
  split; [apply mask_to_points_spec; [assumption | lia]|].
  split; [|split].
  - intros r c Hin. destruct (Hcell is_new r c _ Hin) as (va & vb & Ga & Gb & Hf).
    exists va, vb. unfold is_new in Hf. apply andb_true_iff in Hf.
    destruct Hf as [H0 H1]. apply Z.eqb_eq in H0. apply Z.gtb_lt in H1.
    repeat split; auto.
  - intros r c Hin.
    destruct (Hcell is_cleaned r c _ Hin) as (va & vb & Ga & Gb & Hf).
    exists va, vb. unfold is_cleaned in Hf. apply andb_true_iff in Hf.
    destruct Hf as [H0 H1]. apply Z.eqb_eq in H1. apply Z.gtb_lt in H0.
    repeat split; auto.
  - intros [r c] Hin1 Hin2.
    destruct (Hcell is_new r c _ Hin1) as (va & vb & Ga & Gb & Hf).
    destruct (Hcell is_cleaned r c _ Hin2) as (va' & vb' & Ga' & Gb' & Hf').
    assert (va' = va) by congruence. assert (vb' = vb) by congruence. subst.
    unfold is_new, is_cleaned in *.
    apply andb_true_iff in Hf, Hf'. destruct Hf as [H0 _], Hf' as [H1 _].
    apply Z.eqb_eq in H0. apply Z.gtb_lt in H1. lia.
Qed.

End SampledLayers.

Lemma sampled_layers_are_changes_witness :
  exists new_mask cleaned_mask new_pixels cleaned_pixels,
    compute_changes example_A example_B = Ok (new_mask, cleaned_mask)
    /\ mask_to_points unit_xy new_mask (0, 0) 1 10
       = Ok (map (geo_point unit_xy (0, 0)) new_pixels)
    /\ mask_to_points unit_xy cleaned_mask (0, 0) 1 10
       = Ok (map (geo_point unit_xy (0, 0)) cleaned_pixels)
    /\ (forall r c, In (r, c) new_pixels ->
          exists va vb, getitem example_A r c = Ok va
                        /\ getitem example_B r c = Ok vb /\ va = 0 /\ 0 < vb)
    /\ (forall r c, In (r, c) cleaned_pixels ->
          exists va vb, getitem example_A r c = Ok va
                        /\ getitem example_B r c = Ok vb /\ 0 < va /\ vb = 0)
    /\ (forall p, In p new_pixels -> ~ In p cleaned_pixels).
Proof.
  apply (@sampled_layers_are_changes (Z * Z) Z unit_xy example_A example_B
           (0, 0) 1 10); [reflexivity | reflexivity | reflexivity | lia].
Defined.

(** ** Tabular exporter: rows and CSV text of a point sequence *)

Lemma split_as_maps (A B : Type) (l : list (A * B)) :
  split l = (map fst l, map snd l).
Proof.
  induction l as [|[a b] l IH]; simpl; [reflexivity | now rewrite IH].
Qed.

Lemma transpose_two_columns (V : Type) (l : list (V * V)) :
  transpose (length l) [map fst l; map snd l]
  = map (fun p => [fst p; snd p]) l.
Proof.
  induction l as [|[a b] l IH]; simpl; [reflexivity | now rewrite IH].
Qed.

Lemma points_to_dataframe_row_count (coord : Type)
    (points : list (coord * coord)) :
  row_count (points_to_dataframe points) = length points.
Proof.
  destruct points as [|p points]; [reflexivity|].
  unfold points_to_dataframe. rewrite split_as_maps.
  unfold row_count. cbn [column_data DataFrame_of_dict map snd fst length].
  now rewrite length_map.
Qed.

Lemma points_to_dataframe_rows (coord : Type) (points : list (coord * coord)) :
  table_rows (points_to_dataframe points)
  = map (fun p => [fst p; snd p]) points.
Proof.
  unfold table_rows. rewrite points_to_dataframe_row_count.
  destruct points as [|p points]; [reflexivity|].
  unfold points_to_dataframe. rewrite split_as_maps.
  cbn [column_data DataFrame_of_dict map snd].
  apply (transpose_two_columns (p :: points)).
Qed.

(** X12: The table of a point sequence keeps the two columns, has one row per
    point, and its rows are the points in their order, latitude first. *)
Theorem points_table_rows (coord : Type) (points : list (coord * coord)) :
  let df := points_to_dataframe points in
  columns df = ["latitude"; "longitude"]%string
  /\ row_count df = length points
  /\ table_rows df = map (fun p => [fst p; snd p]) points.
Proof.
  split; [apply points_to_dataframe_columns|].
  split; [apply points_to_dataframe_row_count | apply points_to_dataframe_rows].
Qed.

(** X13: The CSV text of a point sequence is the header line followed by one
    [latitude,longitude] line per point, in order and with repeats kept. *)
Theorem points_csv_lines (coord : Type) (show : coord -> string)
    (lineterminator : string) (points : list (coord * coord)) :
  to_csv show lineterminator (points_to_dataframe points)
  = ("latitude,longitude" ++ lineterminator
     ++ String.concat ""
          (map (fun p => (show (fst p) ++ "," ++ show (snd p))
                         ++ lineterminator)
               points))%string.
Proof.
  unfold to_csv.
  rewrite points_to_dataframe_columns, points_to_dataframe_rows, map_map.
  reflexivity.
Qed.

(** ** Sidebar: the pre-selected file *)




Lemma guess_file_in (tifs : list string) (keyword f : string) :
  guess_file tifs keyword = Some f -> In f tifs.
Proof.
  induction tifs as [|g tifs IH]; simpl; [discriminate|].
  destruct (substring_in keyword (lower g)).
  - intros H; inversion H; now left.
  - intros H; right; now apply IH.
Qed.

Lemma list_index_found (l : list string) (x : string) :
  In x l ->
  exists i, list_index l x = Ok (Z.of_nat i) /\ nth_error l i = Some x.
Proof.
  induction l as [|y l IH]; simpl; [contradiction|].
  intros Hin. destruct (String.eqb_spec y x) as [->|Hne].
  - now exists O.
  - destruct Hin as [-> | Hin]; [now contradiction Hne|].
    destruct (IH Hin) as (i & -> & Hi). exists (S i). simpl.
    split; [f_equal; lia | exact Hi].
Qed.

(** X15: The default of a select box: the option at the computed index is the
    guessed file, and ["(none)"] when no file is guessed; the index is
    never out of range. *)
Theorem default_selection (tifs : list string) (keyword : string) :
  exists i,
    default_index tifs keyword = Ok i
    /\ py_index (select_options tifs) i
       = Ok (match guess_file tifs keyword with
             | Some f => f
             | None => "(none)"%string
             end).
Proof.
  unfold default_index, guess_in.
  destruct (guess_file tifs keyword) as [f|] eqn:G.
  - pose proof (guess_file_in _ _ G) as Hin.
    replace (existsb (String.eqb f) tifs) with true.
    + destruct (list_index_found _ _ Hin) as (i & -> & Hi). simpl.
      exists (Z.of_nat i + 1). split; [reflexivity|].
      apply py_index_of_nth with (j := S i); [exact Hi | left; lia].
    + symmetry. apply existsb_exists. exists f. split; [exact Hin|].
      apply String.eqb_refl.
  - exists 0. split; reflexivity.
Qed.

Example default_selection_example :
  default_index example_tifs "5y" = Ok 3
  /\ default_index example_tifs "2y" = Ok 1
  /\ default_index example_tifs "10y" = Ok 0.
Proof. repeat split. Qed.

(** ** Loaded masks and the comparisons they give *)

Section LoadingProperties.

Variable Transform : Type.
Variable coord : Type.
Variable load_mask : string -> option (ndarray Z * Transform * Bounds coord).
Variable path_join : string -> string -> string.

(** X16: After the loading loop a label is in [loaded] exactly when its select
    box holds a file, and the comparisons are the adjacent pairs of
    selected windows: 5y with 2y, and 2y with 3m; 5y and 3m alone are never
    compared. *)
Theorem pairs_follow_selection (base_path five_y two_y three_m : string)
    (loaded : loaded_t Transform coord) :
  load_selected load_mask path_join base_path five_y two_y three_m
  = Some loaded ->
  contains loaded "5y" = selected five_y
  /\ contains loaded "2y" = selected two_y
  /\ contains loaded "3m" = selected three_m
  /\ build_pairs loaded
     = (if selected five_y && selected two_y
        then [("5y → 2y", "5y", "2y")%string] else [])
       ++ (if selected two_y && selected three_m
           then [("2y → 3m", "2y", "3m")%string] else []).
Proof.
  unfold load_selected, selected. cbn [fold_left load_one].
  destruct (String.eqb five_y "(none)"); cbn [negb];
    [|destruct (load_mask (path_join base_path five_y)) as [[[a5 t5] b5]|]];
    (destruct (String.eqb two_y "(none)"); cbn [negb];
     [|destruct (load_mask (path_join base_path two_y)) as [[[a2 t2] b2]|]]);
    (destruct (String.eqb three_m "(none)"); cbn [negb];
     [|destruct (load_mask (path_join base_path three_m)) as [[[a3 t3] b3]|]]);
    intros H; try discriminate; inversion H; subst loaded;
    repeat split.
Qed.

(** A selected file that cannot be read stops the page before any
    comparison: nothing is loaded. *)
Lemma unreadable_file_stops_loading (base_path five_y two_y three_m : string) :
  (selected five_y = true /\ load_mask (path_join base_path five_y) = None)
  \/ (selected two_y = true /\ load_mask (path_join base_path two_y) = None)
  \/ (selected three_m = true
      /\ load_mask (path_join base_path three_m) = None) ->
  load_selected load_mask path_join base_path five_y two_y three_m = None.
Proof.
  unfold load_selected, selected. cbn [fold_left load_one].
  intros [[H1 H2] | [[H1 H2] | [H1 H2]]]; rewrite ?H1, ?H2;
    repeat match goal with
           | |- context [negb (String.eqb ?f "(none)")] =>
               destruct (negb (String.eqb f "(none)"))
           | |- context [load_mask ?p] =>
               destruct (load_mask p) as [[[? ?] ?]|]
           end; try reflexivity; try discriminate.
Qed.

End LoadingProperties.

Lemma pairs_follow_selection_witness :
  exists loaded,
    load_selected example_load example_join "/data" "a_5y.tif" "(none)" "a_3m.tif"
    = Some loaded
    /\ contains loaded "5y" = true /\ contains loaded "2y" = false
    /\ contains loaded "3m" = true
    /\ build_pairs loaded = [].
Proof.
  eexists. split; [reflexivity|].
  apply (@pairs_follow_selection (Z * Z) Z example_load example_join
           "/data" "a_5y.tif" "(none)" "a_3m.tif").
  reflexivity.
Defined.

(** ** The page runs through *)

Lemma shape_eqb_eq (s1 s2 : Z * Z) : shape_eqb s1 s2 = true -> s1 = s2.
Proof.
  destruct s1 as [r1 c1], s2 as [r2 c2]. unfold shape_eqb. simpl.
  intros H. apply andb_true_iff in H. destruct H as [H1 H2].
  apply Z.eqb_eq in H1, H2. congruence.
Qed.

Section PageProperties.

Variable Transform : Type.
Variable coord : Type.
Variable xy : Transform -> Z -> Z -> coord * coord.
Variable midpoint : coord -> coord -> coord.
Variable show_coord : coord -> string.
Variable loaded : loaded_t Transform coord.
Variable widgets : string -> controls.

Lemma mask_to_points_no_raise (mask : ndarray bool) (t : Transform)
    (step max_points : Z) :
  well_formed mask = true -> step <> 0 ->
  exists pts, mask_to_points xy mask t step max_points = Ok pts.
Proof.
  intros Hm Hs. destruct (Z.lt_trichotomy step 0) as [Hneg | [-> | Hpos]].
  - exists []. unfold mask_to_points, shape.
    now rewrite py_range_negative_step by assumption.
  - now contradiction Hs.
  - eexists. now apply mask_to_points_spec.
Qed.

Lemma pair_body_runs (title a_key b_key : string) (ea eb : entry Transform coord) :
  lookup loaded a_key = Ok ea -> lookup loaded b_key = Ok eb ->
  well_formed (arr ea) = true -> well_formed (arr eb) = true ->
  ctl_step (widgets title) <> 0 ->
  snd (pair_body xy midpoint show_coord loaded widgets (title, a_key, b_key))
  = Ok tt.
Proof.
  intros Ha Hb Wa Wb Hstep. unfold pair_body. rewrite Ha, Hb.
  destruct (shape_eqb (shape (arr ea)) (shape (arr eb))) eqn:Hs;
    cbn [negb]; [|reflexivity].
  apply shape_eqb_eq in Hs.
  rewrite compute_changes_same_shape by assumption.
  destruct (shape_eq_inv Hs) as [Hr Hc].
  destruct (String.eqb (ctl_which (widgets title)) "NEW").
  - destruct (@mask_to_points_no_raise
                (mk_ndarray (nrows (arr ea)) (ncols (arr ea))
                   (zip_with (zip_with is_new) (data (arr ea)) (data (arr eb))))
                (transform eb) (ctl_step (widgets title))
                (ctl_max_pts (widgets title)))
      as (pts & ->); auto using zip_rows_well_formed.
  - destruct (@mask_to_points_no_raise
                (mk_ndarray (nrows (arr ea)) (ncols (arr ea))
                   (zip_with (zip_with is_cleaned) (data (arr ea))
                      (data (arr eb))))
                (transform eb) (ctl_step (widgets title))
                (ctl_max_pts (widgets title)))
      as (pts & ->); auto using zip_rows_well_formed.
Qed.

Lemma run_pairs_all_run (pairs : pairs_t) :
  (forall p, In p pairs ->
     snd (pair_body xy midpoint show_coord loaded widgets p) = Ok tt) ->
  snd (run_pairs xy midpoint show_coord loaded widgets pairs) = Ok tt.
Proof.
  induction pairs as [|p pairs IH]; intros H; simpl; [reflexivity|].
  pose proof (H p (or_introl eq_refl)) as Hp.
  destruct (pair_body xy midpoint show_coord loaded widgets p) as [shown r].
  simpl in Hp. subst r.
  destruct (run_pairs xy midpoint show_coord loaded widgets pairs) as [shown' r'].
  simpl in *. apply IH. intros; apply H; now right.
Qed.

Lemma lookup_in (l : loaded_t Transform coord) (key : string)
    (e : entry Transform coord) :
  lookup l key = Ok e -> In e (map snd l).
Proof.
  induction l as [|[k v] l IH]; simpl; [discriminate|].
  destruct (String.eqb k key).
  - intros H; inversion H; now left.
  - intros H; right; now apply IH.
Qed.

Lemma contains_lookup (key : string) :
  contains loaded key = true -> exists e, lookup loaded key = Ok e.
Proof.
  unfold contains. destruct (lookup loaded key) as [e|]; [eauto | discriminate].
Qed.

(** X17: With well-formed loaded arrays and a nonzero sampling step the loop
    over the comparisons built from [loaded] runs to its end: no key is
    missing, no comparison raises, and a shape mismatch is only reported. *)
Theorem page_runs_through :
  (forall key e, lookup loaded key = Ok e -> well_formed (arr e) = true) ->
  (forall title, ctl_step (widgets title) <> 0) ->
  snd (run_pairs xy midpoint show_coord loaded widgets (build_pairs loaded))
  = Ok tt.
Proof.
  intros Hwf Hstep. apply run_pairs_all_run.
  intros p Hin. unfold build_pairs in Hin. apply in_app_or in Hin.
  destruct Hin as [Hin | Hin].
  - destruct (contains loaded "5y") eqn:E5; [|contradiction].
    destruct (contains loaded "2y") eqn:E2; [|contradiction].
    destruct Hin as [<- | []].
    destruct (contains_lookup _ E5) as (e5 & L5).
    destruct (contains_lookup _ E2) as (e2 & L2).
    eapply pair_body_runs; eauto.
  - destruct (contains loaded "2y") eqn:E2; [|contradiction].
    destruct (contains loaded "3m") eqn:E3; [|contradiction].
    destruct Hin as [<- | []].
    destruct (contains_lookup _ E2) as (e2 & L2).
    destruct (contains_lookup _ E3) as (e3 & L3).
    eapply pair_body_runs; eauto.
Qed.

End PageProperties.

Lemma page_runs_through_witness :
  snd (example_run (build_pairs example_loaded)) = Ok tt.
Proof.
  apply (@page_runs_through (Z * Z) Z unit_xy example_midpoint show_int
           example_loaded example_widgets).
  - intros key e H. apply lookup_in in H. simpl in H.
    destruct H as [<- | [<- | [<- | []]]]; reflexivity.
  - intros title. simpl. lia.
Defined.

(** ** Counting the sampled points *)

Section SamplerCount.

Variable Transform : Type.
Variable coord : Type.
Variable xy : Transform -> Z -> Z -> coord * coord.

(** X9: The number of returned points is the smaller of the cap and the number
    of strided true pixels, where a cap below one counts as one: a mask
    with more strided true pixels than the cap fills the cap exactly. *)
Theorem mask_to_points_length (mask : ndarray bool) (t : Transform)
    (step max_points : Z) :
  well_formed mask = true -> 1 <= step ->
  exists pts,
    mask_to_points xy mask t step max_points = Ok pts
    /\ Z.of_nat (length pts)
       = Z.min (Z.max 1 max_points)
               (Z.of_nat (length (strided_true_pixels mask step))).
Proof.
  intros Hm Hs. eexists. split.
  - apply mask_to_points_spec; [assumption | lia].
  - rewrite length_map, length_firstn. unfold effective_cap. lia.
Qed.

End SamplerCount.

Lemma mask_to_points_length_witness :
  exists pts,
    mask_to_points unit_xy example_mask (0, 0) 2 3 = Ok pts
    /\ Z.of_nat (length pts)
       = Z.min (Z.max 1 3)
               (Z.of_nat (length (strided_true_pixels example_mask 2))).
Proof.
  apply (@mask_to_points_length (Z * Z) Z unit_xy example_mask (0, 0) 2 3);
    [reflexivity | lia].
Defined.

(** ** The download file name *)

Lemma chars_append (s1 s2 : string) :
  list_ascii_of_string (s1 ++ s2)
  = list_ascii_of_string s1 ++ list_ascii_of_string s2.
Proof. induction s1 as [|c s1 IH]; simpl; [reflexivity | now rewrite IH]. Qed.

Lemma replace_space_chars (s : string) :
  ~ In " "%char (list_ascii_of_string (replace_space s)).
Proof.
  unfold replace_space. induction s as [|c s IH]; simpl; [tauto|].
  intros [H | H]; [|now apply IH].
  destruct (Ascii.eqb_spec c " ") as [->|Hne]; [discriminate | congruence].
Qed.

(** X18: The name of the downloaded file,
    [{which.lower()}_{title.replace(' ','_')}_points.csv], holds no space
    for either layer, whatever the title of the comparison. *)
Theorem download_name_has_no_space (which title : string) :
  which = "NEW"%string \/ which = "CLEANED"%string ->
  ~ In " "%char
       (list_ascii_of_string
          (lower which ++ "_" ++ replace_space title ++ "_points.csv")).
Proof.
  intros Hw. rewrite !chars_append, !in_app_iff.
  intros [H | [H | [H | H]]].
  - destruct Hw as [-> | ->]; simpl in H;
      repeat (destruct H as [H | H]; [discriminate|]); contradiction.
  - simpl in H. destruct H as [H | []]. discriminate.
  - now apply replace_space_chars in H.
  - simpl in H.
    repeat (destruct H as [H | H]; [discriminate|]); contradiction.
Qed.

Lemma download_name_has_no_space_witness :
  ~ In " "%char
       (list_ascii_of_string
          (lower "NEW" ++ "_" ++ replace_space "5y → 2y" ++ "_points.csv")).
Proof.
  apply (@download_name_has_no_space "NEW" "5y → 2y"). now left.
Defined.

Example download_name_example :
  (lower "NEW" ++ "_" ++ replace_space "5y → 2y" ++ "_points.csv")%string
  = "new_5y_→_2y_points.csv"%string.
Proof. reflexivity. Qed.
